(** * Payslip generator: amount formatter, payroll totals and PDF layout

    A shallow embedding of [payslip_generator.py].

    - Python values that reach the formatter are [pyval]: integers are [Z],
      floats are IEEE binary64 values ([spec_float] with precision 53 and
      exponent bound 1024), text is [string] (UTF-8 bytes).
    - Exceptions are a [result] monad; [try ... except Exception] is a match
      on it.
    - The ReportLab canvas is a record of finished pages and the drawing
      operators of the page under construction; the layout cursor [y] and the
      page geometry are exact rationals. *)

From Stdlib Require Import ZArith List String Ascii Bool Lia QArith Qround Lqa.
From Stdlib Require Import Decimal DecimalString DecimalN.
From Stdlib Require Import Floats.SpecFloat.
Import ListNotations.

Local Open Scope string_scope.
Local Open Scope Z_scope.

(** ** Exceptions *)

Inductive exn : Type :=
| TypeError
| ValueError
| OverflowError
| KeyError.

Inductive result (A : Type) : Type :=
| Ok (a : A)
| Raise (e : exn).

Arguments Ok {A} a.
Arguments Raise {A} e.

Definition bind {A B : Type} (c : result A) (k : A -> result B) : result B :=
  match c with
  | Ok a => k a
  | Raise e => Raise e
  end.

Notation "x <- c ;; k" := (bind c (fun x => k))
  (at level 61, c at next level, right associativity).

(** ** Text helpers *)

(** [str.replace(old, new)] for one-character [old] and [new], the only way
    the program calls it. *)
Fixpoint replace (old new : ascii) (s : string) : string :=
  match s with
  | EmptyString => EmptyString
  | String c t => String (if Ascii.eqb c old then new else c) (replace old new t)
  end.

(** Decimal digits of a natural number, most significant first. *)
Definition digits (n : N) : string := NilEmpty.string_of_uint (N.to_uint n).

(** The [,] option of the format mini-language, on the digits least
    significant first: a separator after every complete group of three that
    still has a digit after it. *)
Fixpoint group3_rev (sep : ascii) (ds : list ascii) : list ascii :=
  match ds with
  | a :: b :: c :: ((_ :: _) as rest) => a :: b :: c :: sep :: group3_rev sep rest
  | _ => ds
  end.

Definition group_thousands (sep : ascii) (s : string) : string :=
  string_of_list_ascii (List.rev (group3_rev sep (List.rev (list_ascii_of_string s)))).

Definition sign_str (neg : bool) : string := if neg then "-" else EmptyString.

(** [f"{z:,}"] for an integer. *)
Definition format_int_comma (z : Z) : string :=
  sign_str (z <? 0) ++ group_thousands "," (digits (Z.abs_N z)).

Definition digit_char (d : Z) : ascii := ascii_of_nat (48 + Z.to_nat d).

Definition two_digits (r : Z) : string :=
  String (digit_char (r / 10)) (String (digit_char (r mod 10)) EmptyString).

(** ** Binary64 floats *)

Definition float : Type := spec_float.
Definition prec : Z := 53.
Definition emax : Z := 1024.

Definition fadd : float -> float -> float := SFadd prec emax.
Definition fsub : float -> float -> float := SFsub prec emax.
Definition fmul : float -> float -> float := SFmul prec emax.

(** Nearest binary64 value of an integer (ties to even); infinite when the
    integer is beyond the largest finite float. *)
Definition float_of_Z (z : Z) : float := binary_normalize prec emax z 0 false.

(** Nearest integer to [n / d], ties to the even one ([0 <= n], [0 < d]). *)
Definition round_half_even_div (n d : Z) : Z :=
  let q := n / d in
  let r := n mod d in
  match 2 * r ?= d with
  | Lt => q
  | Gt => q + 1
  | Eq => if Z.even q then q else q + 1
  end.

(** Nearest integer to [k * m * 2^e], ties to even. *)
Definition scaled_round (k : Z) (m : positive) (e : Z) : Z :=
  match e with
  | Zneg p => round_half_even_div (k * Zpos m) (2 ^ Zpos p)
  | _ => k * Zpos m * 2 ^ e
  end.

(** [round(x)] with one argument, on a float: an [int], halves rounded to the
    even neighbour; infinities and NaN raise. *)
Definition float_round (f : float) : result Z :=
  match f with
  | S754_zero _ => Ok 0
  | S754_infinity _ => Raise OverflowError
  | S754_nan => Raise ValueError
  | S754_finite s m e => Ok (cond_Zopp s (scaled_round 1 m e))
  end.

(** [f"{x:,.2f}"] on a float: correctly rounded to two decimals (ties to
    even on the exact binary value), integer part grouped by thousands. *)
Definition format_float_comma_2f (f : float) : string :=
  match f with
  | S754_zero s => sign_str s ++ "0.00"
  | S754_infinity s => sign_str s ++ "inf"
  | S754_nan => "nan"
  | S754_finite s m e =>
      let n := scaled_round 100 m e in
      sign_str s ++ group_thousands "," (digits (Z.to_N (n / 100)))
        ++ "." ++ two_digits (n mod 100)
  end.

(** *** [repr] of a float

    The shortest decimal digit string that reads back as the same binary64
    value and, among the strings of that length, the one nearest to it; laid
    out in fixed notation when the decimal point position is in [-3 .. 16]
    and in exponent notation otherwise. *)

Definition Qltb (x y : Q) : bool := negb (Qle_bool y x).

(** [m * 2^e] as a rational. *)
Definition Q_of_mant_exp (m e : Z) : Q :=
  match e with
  | Zneg p => Qmake m (2 ^ p)%positive
  | _ => inject_Z (m * 2 ^ e)
  end.

Definition pow10 (k : Z) : Q :=
  match k with
  | Zneg p => Qmake 1 (10 ^ p)%positive
  | _ => inject_Z (10 ^ k)
  end.

Definition num_digits (n : Z) : Z := Z.of_nat (String.length (digits (Z.to_N n))).

(** Largest [k] with [10^k <= x], for [0 < x]. *)
Definition floor_log10 (x : Q) : Z :=
  let n := Qnum x in
  let d := Zpos (Qden x) in
  if d <=? n then num_digits (n / d) - 1
  else - num_digits ((d + n - 1) / n - 1).

(** The interval of reals that round to the float [m * 2^e] (canonical
    mantissa): its end points, and whether they belong to it. *)
Definition round_interval (m : positive) (e : Z) : Q * Q * bool :=
  let lower :=
    if (Zpos m =? 2 ^ (prec - 1)) && (emin prec emax <? e)
    then Q_of_mant_exp (4 * Zpos m - 1) (e - 2)
    else Q_of_mant_exp (2 * Zpos m - 1) (e - 1) in
  (lower, Q_of_mant_exp (2 * Zpos m + 1) (e - 1), Z.even (Zpos m)).

Definition in_interval (i : Q * Q * bool) (c : Q) : bool :=
  let '(lo, hi, closed) := i in
  if closed then Qle_bool lo c && Qle_bool c hi
  else Qltb lo c && Qltb c hi.

(** The [n]-digit decimal [d * 10^k] that [repr] would print for [x], if
    one lies in the interval. *)
Definition candidate (x : Q) (i : Q * Q * bool) (n : Z) : option (Z * Z) :=
  let k := floor_log10 x - (n - 1) in
  let p := pow10 k in
  let lo := Qfloor (x / p) in
  let hi := lo + 1 in
  let clo := (inject_Z lo * p)%Q in
  let chi := (inject_Z hi * p)%Q in
  match in_interval i clo, in_interval i chi with
  | true, true =>
      match Qcompare (x - clo) (chi - x) with
      | Lt => Some (lo, k)
      | Gt => Some (hi, k)
      | Eq => Some (if Z.even lo then lo else hi, k)
      end
  | true, false => Some (lo, k)
  | false, true => Some (hi, k)
  | false, false => None
  end.

(** The shortest candidate, from [n] digits on; seventeen digits tell any
    two binary64 values apart, which is where the search stops. *)
Fixpoint shortest_from (fuel : nat) (x : Q) (i : Q * Q * bool) (n : Z) : Z * Z :=
  match fuel with
  | O => (Qfloor (x / pow10 (floor_log10 x - 16)), floor_log10 x - 16)
  | S fuel' =>
      match candidate x i n with
      | Some r => r
      | None => shortest_from fuel' x i (n + 1)
      end
  end.

Fixpoint strip_zeros_rev (ds : list ascii) : list ascii :=
  match ds with
  | c :: t => if Ascii.eqb c "0" then strip_zeros_rev t else ds
  | [] => []
  end.

Definition strip_trailing_zeros (s : string) : string :=
  string_of_list_ascii (List.rev (strip_zeros_rev (List.rev (list_ascii_of_string s)))).

Fixpoint zeros (n : nat) : string :=
  match n with
  | O => EmptyString
  | S n' => String "0" (zeros n')
  end.

(** Digits [ds] with the decimal point [decpt] places after the start. *)
Definition layout_short (ds : string) (decpt : Z) : string :=
  let len := Z.of_nat (String.length ds) in
  if (-4 <? decpt) && (decpt <=? 16) then
    if decpt <=? 0 then "0." ++ zeros (Z.to_nat (- decpt)) ++ ds
    else if len <=? decpt then ds ++ zeros (Z.to_nat (decpt - len)) ++ ".0"
    else substring 0 (Z.to_nat decpt) ds ++ "."
           ++ substring (Z.to_nat decpt) (Z.to_nat (len - decpt)) ds
  else
    let ex := decpt - 1 in
    let exs := digits (Z.abs_N ex) in
    substring 0 1 ds
      ++ (if 1 <? len then "." ++ substring 1 (Z.to_nat (len - 1)) ds else EmptyString)
      ++ "e" ++ (if ex <? 0 then "-" else "+")
      ++ (if (String.length exs <? 2)%nat then "0" ++ exs else exs).

(** [repr(x)]; the mantissa is first brought to its canonical form. *)
Definition float_repr (f : float) : string :=
  match f with
  | S754_zero s => sign_str s ++ "0.0"
  | S754_infinity s => sign_str s ++ "inf"
  | S754_nan => "nan"
  | S754_finite s m e =>
      match binary_normalize prec emax (Zpos m) e false with
      | S754_finite _ m' e' =>
          let x := Q_of_mant_exp (Zpos m') e' in
          let '(d, k) := shortest_from 17 x (round_interval m' e') 1 in
          let ds := digits (Z.to_N d) in
          sign_str s
            ++ layout_short (strip_trailing_zeros ds) (Z.of_nat (String.length ds) + k)
      | S754_zero _ => sign_str s ++ "0.0"
      | _ => sign_str s ++ "inf"
      end
  end.

(** ** Values handed to the formatter *)

Inductive pyval : Type :=
| VInt (z : Z)
| VFloat (f : float)
| VStr (s : string)
| VNone.

(** [f"{value}"], that is [str(value)]. *)
Definition py_str (v : pyval) : string :=
  match v with
  | VInt z => sign_str (z <? 0) ++ digits (Z.abs_N z)
  | VFloat f => float_repr f
  | VStr s => s
  | VNone => "None"
  end.

(** [int(round(value))]. *)
Definition int_round (v : pyval) : result Z :=
  match v with
  | VInt z => Ok z
  | VFloat f => float_round f
  | VStr _ => Raise TypeError
  | VNone => Raise TypeError
  end.

(** [f"{value:,.2f}"]; an integer is first converted to a float. *)
Definition format_comma_2f (v : pyval) : result string :=
  match v with
  | VInt z =>
      match float_of_Z z with
      | S754_infinity _ => Raise OverflowError
      | f => Ok (format_float_comma_2f f)
      end
  | VFloat f => Ok (format_float_comma_2f f)
  | VStr _ => Raise ValueError
  | VNone => Raise TypeError
  end.

(** ** The formatter *)

Definition pound_sign : string := String "194" (String "163" EmptyString).
Definition euro_sign : string :=
  String "226" (String "130" (String "172" EmptyString)).

Definition CURRENCY_SYMBOLS : list (string * string) :=
  [ ("IDR", "Rp"); ("SGD", "S$"); ("USD", "$");
    ("GBP", pound_sign); ("EUR", euro_sign) ].

(** Subscript of a dict: [KeyError] on a missing key. *)
Fixpoint dict_get (d : list (string * string)) (k : string) : result string :=
  match d with
  | [] => Raise KeyError
  | (k', v) :: rest => if String.eqb k k' then Ok v else dict_get rest k
  end.

(** The body of the [try] block. *)
Definition format_amount_try (value : pyval) (currency number_format : string)
  : result string :=
  if String.eqb currency "IDR" then
    integer <- int_round value ;;
    let s := format_int_comma integer in
    let s := if String.eqb number_format "EU" then replace "," "." s else s in
    sym <- dict_get CURRENCY_SYMBOLS currency ;;
    Ok (sym ++ " " ++ s)
  else
    s <- format_comma_2f value ;;
    let s :=
      if String.eqb number_format "EU"
      then replace "X" "." (replace "." "," (replace "," "X" s))
      else s in
    sym <- dict_get CURRENCY_SYMBOLS currency ;;
    Ok (sym ++ " " ++ s).

(** [format_amount]: every exception of the body is an [Exception] and is
    caught; the handler returns [f"{value}"]. *)
Definition format_amount (value : pyval) (currency number_format : string)
  : result string :=
  match format_amount_try value currency number_format with
  | Ok s => Ok s
  | Raise _ => Ok (py_str value)
  end.

(** ** Payroll records and the module-level calculations *)

(** A line item as the form builds it: [{"label": ..., "amount": ...}]. *)
Record line : Type := { label : string; amount : float }.

(** The same dict once the script has added its ["fmt"] key. *)
Record item : Type := { entry :> line; fmt : string }.

(** The values collected by the form widgets. [date] is already the
    [strftime] text. *)
Record form : Type := {
  in_company_name : string;
  in_company_address : string;
  in_company_phone : string;
  in_currency : string;
  in_number_format : string;
  in_employee_name : string;
  in_employee_id : string;
  in_position : string;
  in_period : string;
  in_payslip_no : string;
  in_date : string;
  in_base_salary : float;
  in_ot_hours : float;
  in_ot_rate : float;
  in_allowances : list line;
  in_deductions : list line;
  in_benefits : list line
}.

(** The [data] dict handed to the renderer. *)
Record payslip : Type := {
  company_name : string;
  company_address : string;
  company_phone : string;
  date : string;
  payslip_no : string;
  employee_name : string;
  employee_id : string;
  position : string;
  period : string;
  base_salary : float;
  fmt_base_salary : string;
  ot_hours : float;
  ot_rate : float;
  fmt_ot_rate : string;
  ot_amount : float;
  fmt_ot_amount : string;
  allowances : list item;
  deductions : list item;
  benefits : list item;
  fmt_total_earnings : string;
  fmt_total_deductions : string;
  fmt_net_pay : string
}.

(** Numbers of the script: [sum] starts from the integer [0], everything
    else is a float. *)
Inductive num : Type :=
| NInt (z : Z)
| NFloat (f : float).

Definition num_to_float (n : num) : float :=
  match n with
  | NInt z => float_of_Z z
  | NFloat f => f
  end.

Definition val_of_num (n : num) : pyval :=
  match n with
  | NInt z => VInt z
  | NFloat f => VFloat f
  end.

(** [a + b] and [a - b]: integer arithmetic on two integers, otherwise the
    integer operand is converted and the floats are combined. *)
Definition num_add (a b : num) : num :=
  match a, b with
  | NInt x, NInt y => NInt (x + y)
  | _, _ => NFloat (fadd (num_to_float a) (num_to_float b))
  end.

Definition num_sub (a b : num) : num :=
  match a, b with
  | NInt x, NInt y => NInt (x - y)
  | _, _ => NFloat (fsub (num_to_float a) (num_to_float b))
  end.

(** [sum(x['amount'] for x in items)]: left to right from the integer 0.
    (From CPython 3.12 on, [sum] carries a compensation term for floats; it
    gives the same float whenever no addition of the fold rounds.) *)
Definition py_sum (items : list line) : num :=
  fold_left (fun acc x => num_add acc (NFloat (amount x))) items (NInt 0).

Definition calc_ot_amount (f : form) : float :=
  fmul (in_ot_hours f) (in_ot_rate f).

Definition total_allowances (f : form) : num := py_sum (in_allowances f).

Definition total_deductions (f : form) : num := py_sum (in_deductions f).

Definition total_earnings (f : form) : num :=
  num_add (NFloat (fadd (in_base_salary f) (calc_ot_amount f))) (total_allowances f).

Definition net_pay (f : form) : num :=
  num_sub (total_earnings f) (total_deductions f).

(** [for x in items: x['fmt'] = format_amount(x['amount'], ...)]. *)
Fixpoint add_fmt (currency number_format : string) (items : list line)
  : result (list item) :=
  match items with
  | [] => Ok []
  | x :: rest =>
      s <- format_amount (VFloat (amount x)) currency number_format ;;
      rest' <- add_fmt currency number_format rest ;;
      Ok ({| entry := x; fmt := s |} :: rest')
  end.

(** The script from "Perform calculations" to the [data] dict. *)
Definition build_data (f : form) : result payslip :=
  let currency := in_currency f in
  let number_format := in_number_format f in
  let fa v := format_amount v currency number_format in
  benefits' <- add_fmt currency number_format (in_benefits f) ;;
  fmt_base_salary' <- fa (VFloat (in_base_salary f)) ;;
  fmt_ot_rate' <- fa (VFloat (in_ot_rate f)) ;;
  fmt_ot_amount' <- fa (VFloat (calc_ot_amount f)) ;;
  fmt_total_earnings' <- fa (val_of_num (total_earnings f)) ;;
  fmt_total_deductions' <- fa (val_of_num (total_deductions f)) ;;
  fmt_net_pay' <- fa (val_of_num (net_pay f)) ;;
  allowances' <- add_fmt currency number_format (in_allowances f) ;;
  deductions' <- add_fmt currency number_format (in_deductions f) ;;
  Ok {| company_name := in_company_name f;
        company_address := in_company_address f;
        company_phone := in_company_phone f;
        date := in_date f;
        payslip_no := in_payslip_no f;
        employee_name := in_employee_name f;
        employee_id := in_employee_id f;
        position := in_position f;
        period := in_period f;
        base_salary := in_base_salary f;
        fmt_base_salary := fmt_base_salary';
        ot_hours := in_ot_hours f;
        ot_rate := in_ot_rate f;
        fmt_ot_rate := fmt_ot_rate';
        ot_amount := calc_ot_amount f;
        fmt_ot_amount := fmt_ot_amount';
        allowances := allowances';
        deductions := deductions';
        benefits := benefits';
        fmt_total_earnings := fmt_total_earnings';
        fmt_total_deductions := fmt_total_deductions';
        fmt_net_pay := fmt_net_pay' |}.

(** ** [repr] of text and of a line-item dict *)

Definition hex_digit (n : nat) : ascii :=
  match get n "0123456789abcdef" with
  | Some c => c
  | None => "0"%char
  end.

Fixpoint contains_char (c : ascii) (s : string) : bool :=
  match s with
  | EmptyString => false
  | String c' t => Ascii.eqb c c' || contains_char c t
  end.

(** One character of [repr(str)]. Bytes from 128 up belong to the UTF-8
    encoding of a non-ASCII character and are kept as they are. *)
Definition backslash : ascii := "092".
Definition single_quote : ascii := "039".
Definition double_quote : ascii := "034".

Definition escape_char (quote c : ascii) : string :=
  let n := nat_of_ascii c in
  if Ascii.eqb c quote || Ascii.eqb c backslash
  then String backslash (String c EmptyString)
  else if Ascii.eqb c "009" then String backslash "t"
  else if Ascii.eqb c "010" then String backslash "n"
  else if Ascii.eqb c "013" then String backslash "r"
  else if (n <? 32)%nat || (n =? 127)%nat
       then String backslash
              (String "x" (String (hex_digit (n / 16))
                             (String (hex_digit (n mod 16)) EmptyString)))
  else String c EmptyString.

Fixpoint escape_all (quote : ascii) (s : string) : string :=
  match s with
  | EmptyString => EmptyString
  | String c t => escape_char quote c ++ escape_all quote t
  end.

(** Single quotes, unless the text has a single quote and no double one. *)
Definition str_repr (s : string) : string :=
  let quote :=
    if contains_char single_quote s && negb (contains_char double_quote s)
    then double_quote else single_quote in
  String quote (escape_all quote s) ++ String quote EmptyString.

(** [f"{b}"] for a line-item dict with its three keys in insertion order. *)
Definition item_repr (b : item) : string :=
  "{'label': " ++ str_repr (label b)
    ++ ", 'amount': " ++ float_repr (amount b)
    ++ ", 'fmt': " ++ str_repr (fmt b) ++ "}".

(** [s.split("\n")]. *)
Fixpoint split_newline (s : string) : list string :=
  match s with
  | EmptyString => [EmptyString]
  | String c t =>
      if Ascii.eqb c "010" then EmptyString :: split_newline t
      else match split_newline t with
           | first :: rest => String c first :: rest
           | [] => [String c EmptyString]
           end
  end.

(** ** The canvas *)

Inductive color : Type :=
| HexColor (code : string)
| white
| black.

(** The drawing calls the renderer makes, with their arguments. *)
Inductive op : Type :=
| SetFillColor (c : color)
| Rect (x y w h : Q)
| SetFont (name : string) (size : Z)
| DrawString (x y : Q) (text : string)
| DrawRightString (x y : Q) (text : string).

Definition page : Type := list op.

(** Finished pages, and the operators of the page being drawn. *)
Record canvas : Type := { pages : list page; code : page }.

Definition new_canvas : canvas := {| pages := []; code := [] |}.

Definition emit (o : op) (c : canvas) : canvas :=
  {| pages := pages c; code := (code c ++ [o])%list |}.

Definition setFillColor (k : color) : canvas -> canvas := emit (SetFillColor k).
Definition rect (x y w h : Q) : canvas -> canvas := emit (Rect x y w h).
Definition setFont (name : string) (size : Z) : canvas -> canvas :=
  emit (SetFont name size).
Definition drawString (x y : Q) (text : string) : canvas -> canvas :=
  emit (DrawString x y text).
Definition drawRightString (x y : Q) (text : string) : canvas -> canvas :=
  emit (DrawRightString x y text).

(** [showPage] closes the current page and starts an empty one. *)
Definition showPage (c : canvas) : canvas :=
  {| pages := (pages c ++ [code c])%list; code := [] |}.

(** [save] closes the current page if anything was drawn on it; the
    document is the list of pages. *)
Definition save (c : canvas) : list page :=
  match code c with
  | [] => pages c
  | _ :: _ => pages (showPage c)
  end.

(** ** Page geometry: A4 in points

    ReportLab has [inch = 72.0], [mm = inch / 25.4] and
    [A4 = (210 * mm, 297 * mm)]. The program only subtracts integers from
    the cursor and compares it with 80, so the coordinates are kept exact. *)

Local Open Scope Q_scope.

Definition mm : Q := 72 / (254 # 10).
Definition width : Q := 210 * mm.
Definition height : Q := 297 * mm.

(** ** The renderer *)

Definition check_page (c : canvas) (y : Q) : canvas * Q :=
  if Qltb y 80 then (showPage c, height - 80) else (c, y).

Definition header_color : color := HexColor "#083a5d".
Definition text_color : color := black.

(** Header block, title and meta. *)
Definition header_block (data : payslip) (c : canvas) : canvas :=
  let c := setFillColor header_color c in
  let c := rect 0 (height - 80) width 80 c in
  let c := setFillColor white c in
  let c := setFont "Helvetica-Bold" 20 c in
  let c := drawString 120 (height - 45) "Payslip" c in
  let c := setFont "Helvetica" 10 c in
  let c := drawString 120 (height - 60) ("Date: " ++ date data) c in
  let c := drawRightString (width - 40) (height - 45)
             ("Payslip No: " ++ payslip_no data) c in
  setFillColor text_color c.

Fixpoint address_lines (lines : list string) (c : canvas) (y : Q) : canvas * Q :=
  match lines with
  | [] => (c, y)
  | l :: rest => address_lines rest (drawString 40 y l c) (y - 12)
  end.

Definition company_info (data : payslip) (c : canvas) (y : Q) : canvas * Q :=
  let c := setFont "Helvetica-Bold" 11 c in
  let c := drawString 40 y (company_name data) c in
  let y := y - 14 in
  let c := setFont "Helvetica" 10 c in
  let '(c, y) := address_lines (split_newline (company_address data)) c y in
  (drawString 40 y ("Phone: " ++ company_phone data) c, y).

Definition employee_info (data : payslip) (c : canvas) (y : Q) : canvas * Q :=
  let y := y - 24 in
  let c := setFont "Helvetica-Bold" 11 c in
  let c := setFont "Helvetica-Bold" 11 c in
  let c := drawString 40 y "Employee Information" c in
  let y := y - 18 in
  let c := setFont "Helvetica" 10 c in
  let c := drawString 40 y ("Name: " ++ employee_name data) c in
  let c := drawString 300 y ("Employee ID: " ++ employee_id data) c in
  let y := y - 14 in
  let c := drawString 40 y ("Position: " ++ position data) c in
  (drawString 300 y ("Period: " ++ period data) c, y).

Definition ledger_header (c : canvas) (y : Q) : canvas * Q :=
  let y := y - 28 in
  let '(c, y) := check_page c y in
  let c := setFont "Helvetica-Bold" 11 c in
  let c := drawString 40 y "Earnings" c in
  let c := drawString 300 y "Amount" c in
  let c := drawString 380 y "Deductions" c in
  let c := drawString 520 y "Amount" c in
  let y := y - 14 in
  (setFont "Helvetica" 10 c, y).

(** The deduction cell of ledger row [i], drawn only when
    [len(data["deductions"]) > i]. *)
Definition deduction_cell (deds : list item) (i : nat) (y : Q) (c : canvas) : canvas :=
  if (i <? List.length deds)%nat then
    match nth_error deds i with
    | Some d => drawRightString 560 y (fmt d) (drawString 380 y (label d) c)
    | None => c
    end
  else c.

Definition base_salary_row (data : payslip) (c : canvas) (y : Q) : canvas * Q :=
  let c := drawString 40 y "Base Salary" c in
  let c := drawRightString 360 y (fmt_base_salary data) c in
  let c := deduction_cell (deductions data) 0 y c in
  check_page c (y - 14).

Definition overtime_row (data : payslip) (c : canvas) (y : Q) : canvas * Q :=
  let c := drawString 40 y
             ("Overtime (" ++ float_repr (ot_hours data) ++ " hrs @ "
                ++ fmt_ot_rate data ++ "/hr)") c in
  let c := drawRightString 360 y (fmt_ot_amount data) c in
  let c := deduction_cell (deductions data) 1 y c in
  check_page c (y - 14).

(** [for i, a in enumerate(data["allowances"])], from index [i]. *)
Fixpoint allowance_rows (deds : list item) (i : nat) (als : list item)
  (c : canvas) (y : Q) : canvas * Q :=
  match als with
  | [] => (c, y)
  | a :: rest =>
      let c := drawString 40 y (label a) c in
      let c := drawRightString 360 y (fmt a) c in
      let c := deduction_cell deds (2 + i) y c in
      let '(c, y) := check_page c (y - 14) in
      allowance_rows deds (S i) rest c y
  end.

Definition totals (data : payslip) (c : canvas) (y : Q) : canvas * Q :=
  let y := y - 10 in
  let c := setFont "Helvetica-Bold" 11 c in
  let c := drawString 40 y "Total Earnings" c in
  let c := drawRightString 360 y (fmt_total_earnings data) c in
  let c := drawString 380 y "Total Deductions" c in
  let c := drawRightString 560 y (fmt_total_deductions data) c in
  let y := y - 22 in
  let c := setFont "Helvetica-Bold" 14 c in
  let c := drawString 40 y "Net Pay:" c in
  let c := drawRightString 560 y (fmt_net_pay data) c in
  check_page c (y - 30).

Fixpoint benefit_rows (bs : list item) (c : canvas) (y : Q) : canvas * Q :=
  match bs with
  | [] => (c, y)
  | b :: rest =>
      let c := drawString 40 y (label b) c in
      let c := drawRightString 560 y (fmt b) c in
      let '(c, y) := check_page c (y - 12) in
      benefit_rows rest c y
  end.

Definition employer_paid_benefits (data : payslip) (c : canvas) (y : Q) : canvas * Q :=
  let c := setFont "Helvetica-Bold" 11 c in
  let c := drawString 40 y "Employer-Paid Benefits" c in
  let y := y - 16 in
  let c := setFont "Helvetica" 10 c in
  benefit_rows (benefits data) c y.

Fixpoint nonfinancial_rows (bs : list item) (c : canvas) (y : Q) : canvas * Q :=
  match bs with
  | [] => (c, y)
  | b :: rest =>
      let c := drawString 40 y ("- " ++ item_repr b) c in
      let '(c, y) := check_page c (y - 12) in
      nonfinancial_rows rest c y
  end.

Definition nonfinancial_benefits (data : payslip) (c : canvas) (y : Q) : canvas * Q :=
  let c := setFont "Helvetica-Bold" 11 c in
  let c := drawString 40 y "Benefits (Non-financial)" c in
  let y := y - 16 in
  let c := setFont "Helvetica" 10 c in
  nonfinancial_rows (benefits data) c y.

(** The canvas when [c.save()] is reached. [logo_bytes] is a parameter of
    the function; its body never reads it. *)
Definition render (data : payslip) (logo_bytes : option (list Byte.byte)) : canvas :=
  let c := header_block data new_canvas in
  let y := height - 110 in
  let '(c, y) := company_info data c y in
  let '(c, y) := employee_info data c y in
  let '(c, y) := ledger_header c y in
  let '(c, y) := base_salary_row data c y in
  let '(c, y) := overtime_row data c y in
  let '(c, y) := allowance_rows (deductions data) 0 (allowances data) c y in
  let '(c, y) := totals data c y in
  let '(c, y) := employer_paid_benefits data c y in
  let '(c, y) := nonfinancial_benefits data c y in
  c.

Definition create_payslip_pdf (data : payslip) (logo_bytes : option (list Byte.byte))
  : list page :=
  save (render data logo_bytes).

Local Close Scope Q_scope.

(** * Specification vocabulary *)

(** Every character of [s] satisfies [P]. *)
Fixpoint all_chars (P : ascii -> bool) (s : string) : bool :=
  match s with
  | EmptyString => true
  | String c t => P c && all_chars P t
  end.

Definition is_digit (c : ascii) : bool := contains_char c "0123456789".

(** The characters a formatted number is made of. *)
Definition is_number_char (c : ascii) : bool := contains_char c "0123456789,.-infa".



Definition known_currency (currency : string) : Prop :=
  In currency ["IDR"; "SGD"; "USD"; "GBP"; "EUR"].

Definition numeric (v : pyval) : Prop :=
  match v with
  | VInt _ | VFloat _ => True
  | VStr _ | VNone => False
  end.

(** Malformed input of the formatter. *)
Definition malformed (v : pyval) (currency : string) : Prop :=
  ~ known_currency currency \/ ~ numeric v.


(** Exchange of the two separators, every other character kept. *)
Definition swap_char (c : ascii) : ascii :=
  if Ascii.eqb c "," then "."%char
  else if Ascii.eqb c "." then ","%char
  else c.

Fixpoint swap_separators (s : string) : string :=
  match s with
  | EmptyString => EmptyString
  | String c t => String (swap_char c) (swap_separators t)
  end.

(** [g] is the digit string [ds] grouped in threes from the right with
    [sep]: without the separators it is [ds]; counted from the right, the
    positions 3, 7, 11, ... and no others hold a separator; it does not
    start with one. *)
Definition not_char (sep c : ascii) : bool := negb (Ascii.eqb c sep).

Definition grouped_in_threes (sep : ascii) (ds g : string) : Prop :=
  let gl := list_ascii_of_string g in
  filter (not_char sep) gl = list_ascii_of_string ds
  /\ (forall i, (i < List.length gl)%nat ->
                nth i (List.rev gl) sep = sep <-> (i mod 4 = 3)%nat)
  /\ hd_error gl <> Some sep.

(** The real number a finite float stands for. *)
Definition float_value (f : float) : Q :=
  match f with
  | S754_finite s m e => Q_of_mant_exp (cond_Zopp s (Zpos m)) e
  | _ => 0%Q
  end.

(** [n] is [q] rounded to the nearest integer, a tie going to the even
    neighbour. *)
Definition rounds_half_even (q : Q) (n : Z) : Prop :=
  (inject_Z n - (1 # 2) <= q)%Q /\ (q <= inject_Z n + (1 # 2))%Q
  /\ ((q == inject_Z n - (1 # 2))%Q \/ (q == inject_Z n + (1 # 2))%Q -> Z.even n = true).

(** [n] is [q] rounded to the nearest integer, a tie going upwards. *)
Definition rounds_half_up (q : Q) (n : Z) : Prop :=
  (inject_Z n - (1 # 2) <= q)%Q /\ (q < inject_Z n + (1 # 2))%Q.



(** Left-to-right float sum from 0.0. *)
Definition float_sum (xs : list line) : float :=
  fold_left (fun acc x => fadd acc (amount x)) xs (float_of_Z 0).

(** Character classes used in the proofs. *)
Definition not_X (c : ascii) : bool := negb (Ascii.eqb c "X").

Definition not_separator (c : ascii) : bool :=
  negb (Ascii.eqb c ",") && negb (Ascii.eqb c ".").


Definition is_digit_or_comma (c : ascii) : bool := contains_char c "0123456789,".

(** ** Sample inputs *)

Definition two_and_a_half : float := S754_finite false 5 (-1).
Definition three_and_a_half : float := S754_finite false 7 (-1).


Definition mk_line (l : string) (a : Z) : line :=
  {| label := l; amount := float_of_Z a |}.

Definition sample_form (als deds bens : list line) : form :=
  {| in_company_name := "My Company Ltd.";
     in_company_address := "123 Business Road" ++ String "010" "Business City, 12345";
     in_company_phone := "+1 234 567 890";
     in_currency := "USD";
     in_number_format := "US";
     in_employee_name := "John Doe";
     in_employee_id := "EMP-001";
     in_position := "Software Engineer";
     in_period := "November 2026";
     in_payslip_no := "PSL20261104-001";
     in_date := "2026-11-04";
     in_base_salary := float_of_Z 3000;
     in_ot_hours := float_of_Z 10;
     in_ot_rate := float_of_Z 20;
     in_allowances := als;
     in_deductions := deds;
     in_benefits := bens |}.

(** ** Vocabulary of the layout claims *)

Local Open Scope Q_scope.

(** Every operator drawn so far, page after page. *)
Definition all_ops (c : canvas) : list op := (List.concat (pages c) ++ code c)%list.

(** The cursor of a text operator is at least [k]. *)
Definition at_least (k : Q) (o : op) : Prop :=
  match o with
  | DrawString _ y _ | DrawRightString _ y _ => k <= y
  | _ => True
  end.

(** The cursor of a text operator is below [k]. *)
Definition below (k : Q) (o : op) : bool :=
  match o with
  | DrawString _ y _ | DrawRightString _ y _ => Qltb y k
  | _ => false
  end.

(** An element of the header band: the band itself, or a text in the
    columns of the title and of the payslip number. *)
Definition header_draw (o : op) : bool :=
  match o with
  | Rect _ _ _ _ => true
  | DrawString x _ _ => Qeq_bool x 120
  | DrawRightString x _ _ => Qeq_bool x (width - 40)
  | _ => false
  end.

(** An operator of the body, drawn with the cursor at [k] or above. *)
Definition body_op (k : Q) (o : op) : Prop :=
  at_least k o /\ header_draw o = false.

(** What the header block draws. *)
Definition header_ops (data : payslip) : page := code (header_block data new_canvas).

(** [c'] is reached from [c] by drawing operators that satisfy [P] and by
    page breaks. *)
Inductive steps (P : op -> Prop) (c : canvas) : canvas -> Prop :=
| steps_refl : steps P c c
| steps_emit c' o : steps P c c' -> P o -> steps P c (emit o c')
| steps_showPage c' : steps P c c' -> steps P c (showPage c').

(** The renderer up to the end of each block: canvas and cursor. *)
Definition after_employee (data : payslip) : canvas * Q :=
  let c := header_block data new_canvas in
  let y := height - 110 in
  let '(c, y) := company_info data c y in
  employee_info data c y.

Definition after_ledger_header (data : payslip) : canvas * Q :=
  let '(c, y) := after_employee data in ledger_header c y.

Definition after_base_salary (data : payslip) : canvas * Q :=
  let '(c, y) := after_ledger_header data in base_salary_row data c y.

Definition after_ledger (data : payslip) : canvas * Q :=
  let '(c, y) := after_base_salary data in
  let '(c, y) := overtime_row data c y in
  allowance_rows (deductions data) 0 (allowances data) c y.

Definition after_totals (data : payslip) : canvas * Q :=
  let '(c, y) := after_ledger data in totals data c y.

Definition after_benefits (data : payslip) : canvas * Q :=
  let '(c, y) := after_totals data in employer_paid_benefits data c y.

Definition after_nonfinancial (data : payslip) : canvas * Q :=
  let '(c, y) := after_benefits data in nonfinancial_benefits data c y.

(** The operators drawn between two states of the canvas. *)
Definition segment (a b : canvas * Q) : list op :=
  skipn (List.length (all_ops (fst a))) (all_ops (fst b)).




(** The text of a text operator. *)
Definition op_text (o : op) : option string :=
  match o with
  | DrawString _ _ t | DrawRightString _ _ t => Some t
  | _ => None
  end.

Definition draws_text (t : string) (o : op) : bool :=
  match op_text o with
  | Some t' => String.eqb t t'
  | None => false
  end.

Local Close Scope Q_scope.

(** ** Sample records *)

Definition mk_item (l : string) (a : Z) (f : string) : item :=
  {| entry := mk_line l a; fmt := f |}.

Definition sample_data (als deds bens : list item) : payslip :=
  {| company_name := "My Company Ltd.";
     company_address := "123 Business Road" ++ String "010" "Business City, 12345";
     company_phone := "+1 234 567 890";
     date := "2026-11-04";
     payslip_no := "PSL20261104-001";
     employee_name := "John Doe";
     employee_id := "EMP-001";
     position := "Software Engineer";
     period := "November 2026";
     base_salary := float_of_Z 3000;
     fmt_base_salary := "$ 3,000.00";
     ot_hours := float_of_Z 10;
     ot_rate := float_of_Z 20;
     fmt_ot_rate := "$ 20.00";
     ot_amount := float_of_Z 200;
     fmt_ot_amount := "$ 200.00";
     allowances := als;
     deductions := deds;
     benefits := bens;
     fmt_total_earnings := "$ 3,700.00";
     fmt_total_deductions := "$ 300.00";
     fmt_net_pay := "$ 3,400.00" |}.

Definition transport : item := mk_item "Transport" 500 "$ 500.00".
Definition tax : item := mk_item "Tax" 100 "$ 100.00".
Definition pension : item := mk_item "Pension" 100 "$ 100.00".
Definition loan : item := mk_item "Loan" 100 "$ 100.00".

Local Open Scope Q_scope.

(** An operator that is no element of the header band. *)
Definition not_header (o : op) : Prop := header_draw o = false.

(** A text in the column of the deduction labels. *)
Definition deduction_column (o : op) : bool :=
  match o with
  | DrawString x _ _ => Qeq_bool x 380
  | _ => false
  end.

Definition count_ops (p : op -> bool) (l : list op) : nat :=
  List.length (filter p l).

Local Close Scope Q_scope.

(** A line item of the form and the item the renderer receives for it. *)
Definition formatted (currency number_format : string) (l : line) (b : item) : Prop :=
  entry b = l
  /\ format_amount (VFloat (amount l)) currency number_format = Ok (fmt b).

(** No allowance and three deductions. *)
Definition three_deductions : payslip := sample_data [] [tax; pension; loan] [].

(** Thirty-five allowances: more rows than one page holds. *)
Definition two_pages : payslip := sample_data (repeat transport 35) [tax] [].

(** ** Vocabulary of the further properties *)

(** The separators of a numbering style: every style but "EU" is the US one. *)
Definition thousands_sep (number_format : string) : ascii :=
  if String.eqb number_format "EU" then "."%char else ","%char.

Definition decimal_sep (number_format : string) : ascii :=
  if String.eqb number_format "EU" then ","%char else "."%char.


Definition non_finite (f : float) : Prop :=
  match f with
  | S754_infinity _ | S754_nan => True
  | _ => False
  end.

Local Open Scope Q_scope.

(** One ledger row at cursor [y]: the earnings cell, then the cell of the
    deduction of index [i] when there is one. *)
Definition ledger_row (deds : list item) (i : nat) (text amt : string) (y : Q) : list op :=
  ([DrawString 40 y text; DrawRightString 360 y amt]
   ++ match nth_error deds i with
      | Some d => [DrawString 380 y (label d); DrawRightString 560 y (fmt d)]
      | None => []
      end)%list.

(** The rows of the allowances, the first one with deduction index [i]. *)
Fixpoint allowance_ledger_rows (deds : list item) (i : nat) (als : list item)
  (ys : list Q) : list op :=
  match als, ys with
  | a :: als', y :: ys' =>
      (ledger_row deds i (label a) (fmt a) y
       ++ allowance_ledger_rows deds (S i) als' ys')%list
  | _, _ => []
  end.

Definition overtime_text (data : payslip) : string :=
  "Overtime (" ++ float_repr (ot_hours data) ++ " hrs @ " ++ fmt_ot_rate data ++ "/hr)".

(** No finished page of the canvas is blank. *)
Definition no_blank_page (c : canvas) : Prop := Forall (fun p : page => p <> []) (pages c).

(** The cursor of [s] is [height - K] as long as no page was closed. *)
Definition exact_cursor (s : canvas * Q) (K : Z) : Prop :=
  pages (fst s) = [] -> snd s == height - inject_Z K.

(** From [s] to [s'] the renderer closes no page it had not closed before,
    keeps the cursor exact, and closes no page at all when the cursor stays
    at 80 or above, that is [K' <= 761]. *)
Definition tracks (s : canvas * Q) (K : Z) (s' : canvas * Q) (K' : Z) : Prop :=
  (pages (fst s') = [] -> pages (fst s) = [])
  /\ (exact_cursor s K -> exact_cursor s' K')
  /\ (exact_cursor s K -> pages (fst s) = [] -> (K' <= 761)%Z -> pages (fst s') = []).

(** The number of lines of the company address. *)
Definition address_line_count (data : payslip) : Z :=
  Z.of_nat (List.length (split_newline (company_address data))).

(** The record fits one page. *)
Definition fits_one_page (data : payslip) : Prop :=
  let n := address_line_count data in
  let a := Z.of_nat (List.length (allowances data)) in
  let b := Z.of_nat (List.length (benefits data)) in
  ((b = 0 /\ 12 * n + 14 * a <= 449)
   \/ (b = 1 /\ 12 * n + 14 * a <= 421)
   \/ (2 <= b /\ 12 * n + 14 * a + 24 * b <= 429))%Z.

Local Close Scope Q_scope.

(** * Proofs *)


(** * Text lemmas *)

Lemma forallb_rev {A} (P : A -> bool) l : forallb P (List.rev l) = forallb P l.
Proof.
  induction l as [|a l IH]; simpl; [reflexivity|].
  rewrite forallb_app, IH. simpl. rewrite andb_true_r. apply andb_comm.
Qed.

Lemma all_chars_digits n : all_chars is_digit (digits n) = true.
Proof.
  unfold digits. induction (N.to_uint n); simpl; auto.
Qed.

Lemma group3_rev_step sep a b c d rest :
  group3_rev sep (a :: b :: c :: d :: rest)
  = a :: b :: c :: sep :: group3_rev sep (d :: rest).
Proof. reflexivity. Qed.

Section AllChars.

Variable P : ascii -> bool.

Lemma all_chars_app s t :
  all_chars P (s ++ t) = all_chars P s && all_chars P t.
Proof.
  induction s as [|c s IH]; simpl; [reflexivity|].
  now rewrite IH, andb_assoc.
Qed.

Lemma all_chars_of_list l :
  all_chars P (string_of_list_ascii l) = forallb P l.
Proof. induction l as [|c l IH]; simpl; congruence. Qed.

Lemma all_chars_to_list s :
  forallb P (list_ascii_of_string s) = all_chars P s.
Proof. induction s as [|c s IH]; simpl; congruence. Qed.

Lemma all_chars_weaken (R : ascii -> bool) s :
  (forall c, P c = true -> R c = true) ->
  all_chars P s = true -> all_chars R s = true.
Proof.
  intros HPR. induction s as [|c s IH]; simpl; [reflexivity|].
  rewrite !andb_true_iff. intros [Hc Hs]. auto.
Qed.



Lemma forallb_group3_rev sep : forall n ds,
  (List.length ds <= n)%nat ->
  P sep = true -> forallb P ds = true -> forallb P (group3_rev sep ds) = true.
Proof.
  induction n as [|n IH]; intros ds Hn Hsep H.
  - destruct ds; [reflexivity | simpl in Hn; lia].
  - destruct ds as [|a [|b [|c [|d rest]]]]; try exact H.
    rewrite group3_rev_step.
    change (forallb P (a :: b :: c :: d :: rest))
      with (P a && (P b && (P c && forallb P (d :: rest)))) in H.
    change (P a && (P b && (P c && (P sep && forallb P (group3_rev sep (d :: rest))))) = true).
    apply andb_true_iff in H as [Ha H]. apply andb_true_iff in H as [Hb H].
    apply andb_true_iff in H as [Hc H].
    rewrite Ha, Hb, Hc, Hsep. cbn [andb].
    apply IH; auto. simpl in Hn |- *. lia.
Qed.

Lemma all_chars_group sep s :
  P sep = true -> all_chars P s = true -> all_chars P (group_thousands sep s) = true.
Proof.
  intros Hsep H. unfold group_thousands.
  rewrite all_chars_of_list, forallb_rev.
  apply (forallb_group3_rev sep _ _ (le_n _) Hsep).
  now rewrite forallb_rev, all_chars_to_list.
Qed.



End AllChars.

Lemma is_digit_digit_char d : 0 <= d <= 9 -> is_digit (digit_char d) = true.
Proof.
  intros H.
  assert (d = 0 \/ d = 1 \/ d = 2 \/ d = 3 \/ d = 4 \/ d = 5 \/ d = 6 \/ d = 7
          \/ d = 8 \/ d = 9) as Hd by lia.
  repeat (destruct Hd as [-> | Hd]; [reflexivity|]). subst d. reflexivity.
Qed.

Lemma all_chars_two_digits r : 0 <= r < 100 -> all_chars is_digit (two_digits r) = true.
Proof.
  intros H. unfold two_digits.
  change (is_digit (digit_char (r / 10))
          && (is_digit (digit_char (r mod 10)) && true) = true).
  rewrite !is_digit_digit_char; [reflexivity| |].
  - pose proof (Z.mod_pos_bound r 10 ltac:(lia)). lia.
  - pose proof (Z.div_pos r 10 ltac:(lia) ltac:(lia)).
    pose proof (Z.div_lt_upper_bound r 10 10 ltac:(lia) ltac:(lia)). lia.
Qed.

Lemma digit_is_number_char c : is_digit c = true -> is_number_char c = true.
Proof.
  destruct c as [[] [] [] [] [] [] [] []]; vm_compute; congruence.
Qed.

Lemma all_chars_sign_str P s : P "-"%char = true -> all_chars P (sign_str s) = true.
Proof. intros H. destruct s; simpl; [now rewrite H | reflexivity]. Qed.

Lemma format_float_chars f : all_chars is_number_char (format_float_comma_2f f) = true.
Proof.
  destruct f as [s | s | | s m e]; try (destruct s; reflexivity); try reflexivity.
  unfold format_float_comma_2f.
  rewrite !all_chars_app.
  rewrite all_chars_sign_str by reflexivity.
  rewrite all_chars_group;
    [ | reflexivity
      | apply (all_chars_weaken is_digit); [exact digit_is_number_char | apply all_chars_digits] ].
  rewrite (all_chars_weaken is_digit is_number_char (two_digits _) digit_is_number_char).
  - reflexivity.
  - apply all_chars_two_digits. apply Z.mod_pos_bound. lia.
Qed.



Lemma number_char_not_X c : is_number_char c = true -> not_X c = true.
Proof. destruct c as [[] [] [] [] [] [] [] []]; vm_compute; congruence. Qed.

Lemma replace_swap s :
  all_chars not_X s = true ->
  replace "X" "." (replace "." "," (replace "," "X" s)) = swap_separators s.
Proof.
  induction s as [|c s IH]; [reflexivity|].
  cbn [all_chars replace swap_separators].
  intros H. apply andb_true_iff in H as [Hc Hs].
  rewrite (IH Hs). f_equal. unfold swap_char.
  destruct (Ascii.eqb c ",") eqn:E1; [reflexivity|].
  destruct (Ascii.eqb c ".") eqn:E2; [reflexivity|].
  unfold not_X in Hc. apply negb_true_iff in Hc. now rewrite Hc.
Qed.


Lemma swap_separators_id s :
  all_chars not_separator s = true -> swap_separators s = s.
Proof.
  induction s as [|c s IH]; [reflexivity|].
  cbn [all_chars swap_separators]. intros H.
  apply andb_true_iff in H as [Hc Hs]. rewrite (IH Hs). f_equal.
  unfold not_separator in Hc. apply andb_true_iff in Hc as [H1 H2].
  apply negb_true_iff in H1, H2. unfold swap_char. now rewrite H1, H2.
Qed.








(** ** The plain rendering *)

Lemma app_nonempty_l s t : s <> EmptyString -> s ++ t <> EmptyString.
Proof. destruct s; [congruence | discriminate]. Qed.













Lemma dict_get_unknown currency :
  ~ known_currency currency -> dict_get CURRENCY_SYMBOLS currency = Raise KeyError.
Proof.
  unfold known_currency. intros H. cbn [dict_get CURRENCY_SYMBOLS].
  repeat match goal with
         | |- context [String.eqb currency ?k] =>
             destruct (String.eqb_spec currency k) as [-> | _];
             [exfalso; apply H; simpl; tauto|]
         end.
  reflexivity.
Qed.

(** Malformed input always takes the handler. *)
Lemma format_amount_malformed v currency nf :
  malformed v currency -> format_amount v currency nf = Ok (py_str v).
Proof.
  intros Hm. unfold format_amount, format_amount_try.
  destruct (String.eqb_spec currency "IDR") as [-> | Hne].
  - destruct Hm as [Hk | Hn]; [exfalso; apply Hk; unfold known_currency; simpl; tauto|].
    destruct v; simpl in Hn; try tauto; reflexivity.
  - destruct (format_comma_2f v) as [s | e] eqn:E; [|reflexivity].
    cbn [bind]. destruct Hm as [Hk | Hn].
    + now rewrite (dict_get_unknown _ Hk).
    + destruct v; simpl in Hn; try tauto; discriminate.
Qed.





(** ** Rounding *)

Lemma round_half_even_div_spec n p :
  0 <= n -> rounds_half_even (n # p) (round_half_even_div n (Zpos p)).
Proof.
  intros Hn. unfold round_half_even_div.
  pose proof (Z.div_mod n (Zpos p) ltac:(lia)) as Hdm.
  pose proof (Z.mod_pos_bound n (Zpos p) ltac:(lia)) as Hr.
  set (q := n / Zpos p) in *. set (r := n mod Zpos p) in *.
  assert (Hqodd : Z.even q = false -> Z.even (q + 1) = true).
  { intros H. rewrite Z.add_1_r, Z.even_succ, <- Z.negb_even, H. reflexivity. }
  unfold rounds_half_even, Qle, Qeq. cbn [Qnum Qden Qminus Qplus Qopp inject_Z Qmult].
  destruct (Z.compare_spec (2 * r) (Zpos p)) as [He | Hlt | Hgt].
  - destruct (Z.even q) eqn:Ev.
    + repeat split; try nia; intros _; auto.
    + repeat split; try nia; intros _; auto.
  - repeat split; try nia; intros [H | H]; exfalso; nia.
  - repeat split; try nia; intros [H | H]; exfalso; nia.
Qed.

Lemma rounds_half_even_opp q n :
  rounds_half_even q n -> rounds_half_even (- q) (- n).
Proof.
  unfold rounds_half_even. rewrite inject_Z_opp, Z.even_opp.
  intros (H1 & H2 & H3). split; [lra|]. split; [lra|].
  intros [H | H]; apply H3; [right | left]; lra.
Qed.

Lemma rounds_half_even_exact z : rounds_half_even (inject_Z z) z.
Proof.
  unfold rounds_half_even. split; [lra|]. split; [lra|].
  intros [H | H]; exfalso; lra.
Qed.

Lemma scaled_round_1_spec m e :
  rounds_half_even (Q_of_mant_exp (Zpos m) e) (scaled_round 1 m e).
Proof.
  unfold scaled_round, Q_of_mant_exp. destruct e as [|p|p].
  - replace (1 * Z.pos m * 2 ^ 0) with (Z.pos m * 2 ^ 0) by lia.
    apply rounds_half_even_exact.
  - replace (1 * Z.pos m * 2 ^ Z.pos p) with (Z.pos m * 2 ^ Z.pos p) by lia.
    apply rounds_half_even_exact.
  - replace (1 * Z.pos m) with (Z.pos m) by lia.
    rewrite <- Pos2Z.inj_pow. apply round_half_even_div_spec. lia.
Qed.

Lemma Q_of_mant_exp_opp m e : Q_of_mant_exp (- m) e = (- Q_of_mant_exp m e)%Q.
Proof.
  unfold Q_of_mant_exp. destruct e; unfold Qopp, inject_Z; cbn [Qnum Qden]; f_equal; lia.
Qed.

(** [round] on a finite float is rounding half to even of its value. *)
Lemma float_round_finite s m e :
  exists n, float_round (S754_finite s m e) = Ok n
            /\ rounds_half_even (float_value (S754_finite s m e)) n.
Proof.
  eexists. split; [reflexivity|].
  unfold float_value. destruct s; cbn [cond_Zopp].
  - change (Z.neg m) with (- Z.pos m). rewrite Q_of_mant_exp_opp.
    apply rounds_half_even_opp, scaled_round_1_spec.
  - apply scaled_round_1_spec.
Qed.

Lemma scaled_round_nonneg k m e : 0 <= k -> 0 <= scaled_round k m e.
Proof.
  intros Hk. unfold scaled_round. destruct e as [|p|p].
  - nia.
  - pose proof (Z.pow_pos_nonneg 2 (Z.pos p)). nia.
  - unfold round_half_even_div.
    assert (0 <= k * Z.pos m / 2 ^ Z.pos p) by (apply Z.div_pos; [nia | lia]).
    destruct (2 * _ ?= _); [destruct (Z.even _)| | ]; lia.
Qed.

Lemma format_amount_idr v nf :
  format_amount v "IDR" nf =
  match int_round v with
  | Ok n =>
      Ok ("Rp " ++ (if String.eqb nf "EU"
                    then replace "," "." (format_int_comma n)
                    else format_int_comma n))
  | Raise _ => Ok (py_str v)
  end.
Proof.
  unfold format_amount, format_amount_try.
  change (String.eqb "IDR" "IDR") with true. cbv iota.
  destruct (int_round v); reflexivity.
Qed.


(** C10. The integer shown for an IDR amount is the value rounded half to
    even: 2.5 gives "Rp 2" and 3.5 gives "Rp 4", where rounding half up
    would give 3 for 2.5. *)
Theorem C10_idr_rounds_half_to_even :
  (forall s m e,
     exists n,
       rounds_half_even (float_value (S754_finite s m e)) n
       /\ format_amount (VFloat (S754_finite s m e)) "IDR" "US"
          = Ok ("Rp " ++ format_int_comma n))
  /\ format_amount (VFloat two_and_a_half) "IDR" "US" = Ok "Rp 2"
  /\ format_amount (VFloat three_and_a_half) "IDR" "US" = Ok "Rp 4"
  /\ rounds_half_up (float_value two_and_a_half) 3
  /\ ~ rounds_half_up (float_value two_and_a_half) 2.
Proof.
  split; [|split; [|split; [|split]]].
  - intros s m e. destruct (float_round_finite s m e) as [n [Hr Hn]].
    exists n. split; [exact Hn|].
    rewrite format_amount_idr. cbn [int_round]. rewrite Hr. reflexivity.
  - vm_compute. reflexivity.
  - vm_compute. reflexivity.
  - split; [vm_compute; discriminate | vm_compute; reflexivity].
  - intros [_ H]. vm_compute in H. discriminate.
Qed.


(** ** Grouping by thousands *)


Lemma filter_all {A} (P : A -> bool) l : forallb P l = true -> filter P l = l.
Proof.
  induction l as [|a l IH]; simpl; [reflexivity|].
  intros H. apply andb_true_iff in H as [Ha Hl]. now rewrite Ha, IH.
Qed.

Lemma not_char_refl sep : not_char sep sep = false.
Proof. unfold not_char. now rewrite Ascii.eqb_refl. Qed.

Lemma not_char_neq sep c : not_char sep c = true -> c <> sep.
Proof.
  unfold not_char. intros H ->. rewrite Ascii.eqb_refl in H. discriminate.
Qed.

Lemma filter_group3_rev sep : forall n ds,
  (List.length ds <= n)%nat ->
  forallb (not_char sep) ds = true ->
  filter (not_char sep) (group3_rev sep ds) = ds.
Proof.
  induction n as [|n IH]; intros ds Hn H.
  - destruct ds; [reflexivity | simpl in Hn; lia].
  - destruct ds as [|a [|b [|c [|d rest]]]]; try (now apply filter_all).
    rewrite group3_rev_step.
    change (forallb (not_char sep) (a :: b :: c :: d :: rest))
      with (not_char sep a && (not_char sep b && (not_char sep c
              && forallb (not_char sep) (d :: rest)))) in H.
    apply andb_true_iff in H as [Ha H]. apply andb_true_iff in H as [Hb H].
    apply andb_true_iff in H as [Hc H].
    cbn [filter]. rewrite Ha, Hb, Hc, not_char_refl.
    rewrite IH; [reflexivity | simpl in Hn |- *; lia | exact H].
Qed.

Lemma group3_rev_positions sep : forall n ds,
  (List.length ds <= n)%nat ->
  forallb (not_char sep) ds = true ->
  forall i, (i < List.length (group3_rev sep ds))%nat ->
            nth i (group3_rev sep ds) sep = sep <-> (i mod 4 = 3)%nat.
Proof.
  induction n as [|n IH]; intros ds Hn H i Hi.
  - destruct ds; simpl in *; lia.
  - destruct ds as [|a [|b [|c [|d rest]]]].
    + simpl in Hi; lia.
    + cbn [forallb] in H. rewrite andb_true_r in H. apply not_char_neq in H.
      destruct i as [|i]; [|simpl in Hi; lia].
      simpl. split; [congruence | discriminate].
    + cbn [forallb] in H. rewrite andb_true_r in H.
      apply andb_true_iff in H as [Ha Hb]. apply not_char_neq in Ha, Hb.
      destruct i as [|[|i]]; [| |simpl in Hi; lia];
        simpl; (split; [congruence | discriminate]).
    + cbn [forallb] in H. rewrite andb_true_r in H.
      apply andb_true_iff in H as [Ha H]. apply andb_true_iff in H as [Hb Hc].
      apply not_char_neq in Ha, Hb, Hc.
      destruct i as [|[|[|i]]]; [| | |simpl in Hi; lia];
        simpl; (split; [congruence | discriminate]).
    + rewrite group3_rev_step in Hi |- *.
      change (forallb (not_char sep) (a :: b :: c :: d :: rest))
        with (not_char sep a && (not_char sep b && (not_char sep c
                && forallb (not_char sep) (d :: rest)))) in H.
      apply andb_true_iff in H as [Ha H]. apply andb_true_iff in H as [Hb H].
      apply andb_true_iff in H as [Hc H].
      apply not_char_neq in Ha, Hb, Hc.
      destruct i as [|[|[|[|i]]]].
      * simpl. split; [congruence | discriminate].
      * simpl. split; [congruence | discriminate].
      * simpl. split; [congruence | discriminate].
      * simpl. split; reflexivity.
      * cbn [nth]. cbn [Datatypes.length] in Hi.
        rewrite (IH (d :: rest)); [ | simpl in Hn |- *; lia | exact H | lia].
        replace (S (S (S (S i)))) with (i + 1 * 4)%nat by lia.
        rewrite Nat.Div0.mod_add. reflexivity.
Qed.

Lemma group3_rev_nonempty sep ds : ds <> [] -> group3_rev sep ds <> [].
Proof.
  destruct ds as [|a [|b [|c [|d rest]]]]; try congruence;
    intros _; rewrite ?group3_rev_step; discriminate.
Qed.

Lemma hd_error_app_l {A} (l r : list A) : l <> [] -> hd_error (l ++ r) = hd_error l.
Proof. destruct l; [congruence | reflexivity]. Qed.

Lemma hd_error_In {A} (l : list A) x : hd_error l = Some x -> In x l.
Proof. destruct l; simpl; [discriminate | intros [= ->]; now left]. Qed.

Lemma rev_nonempty {A} (l : list A) : l <> [] -> List.rev l <> [].
Proof.
  destruct l as [|a l]; [congruence|]. intros _ H.
  apply (f_equal (@List.length A)) in H. rewrite length_rev in H. discriminate.
Qed.

Lemma group3_rev_last sep : forall n ds,
  (List.length ds <= n)%nat ->
  forallb (not_char sep) ds = true ->
  forall x, hd_error (List.rev (group3_rev sep ds)) = Some x -> not_char sep x = true.
Proof.
  induction n as [|n IH]; intros ds Hn H x Hx.
  - destruct ds; [discriminate | simpl in Hn; lia].
  - assert (Hshort : group3_rev sep ds = ds -> not_char sep x = true).
    { intros E. rewrite E in Hx. apply hd_error_In, in_rev in Hx.
      rewrite forallb_forall in H. now apply H. }
    destruct ds as [|a [|b [|c [|d rest]]]]; try (now apply Hshort).
    rewrite group3_rev_step in Hx.
    change (List.rev (a :: b :: c :: sep :: group3_rev sep (d :: rest)))
      with ((((List.rev (group3_rev sep (d :: rest)) ++ [sep]) ++ [c]) ++ [b]) ++ [a])%list
      in Hx.
    rewrite <- !app_assoc in Hx.
    rewrite hd_error_app_l in Hx
      by (apply rev_nonempty, group3_rev_nonempty; discriminate).
    apply (IH (d :: rest)); [simpl in Hn |- *; lia | | exact Hx].
    cbn [forallb] in H |- *.
    apply andb_true_iff in H as [_ H]. apply andb_true_iff in H as [_ H].
    apply andb_true_iff in H as [_ H]. exact H.
Qed.

(** The thousands grouping of the format mini-language groups in threes
    from the right. *)
Lemma group_thousands_grouped sep s :
  all_chars (not_char sep) s = true ->
  grouped_in_threes sep s (group_thousands sep s).
Proof.
  intros H. unfold grouped_in_threes, group_thousands.
  rewrite list_ascii_of_string_of_list_ascii.
  set (ds := List.rev (list_ascii_of_string s)).
  assert (Hds : forallb (not_char sep) ds = true)
    by (unfold ds; now rewrite forallb_rev, all_chars_to_list).
  split; [|split].
  - rewrite <- (rev_involutive (list_ascii_of_string s)). fold ds.
    rewrite filter_rev. f_equal.
    apply (filter_group3_rev sep _ _ (le_n _) Hds).
  - intros i Hi. rewrite rev_involutive. rewrite length_rev in Hi.
    apply (group3_rev_positions sep _ _ (le_n _) Hds i Hi).
  - intros Hx. apply (group3_rev_last sep _ _ (le_n _) Hds) in Hx.
    now rewrite not_char_refl in Hx.
Qed.

Lemma replace_of_list old new l :
  replace old new (string_of_list_ascii l)
  = string_of_list_ascii (map (fun c => if Ascii.eqb c old then new else c) l).
Proof. induction l as [|c l IH]; simpl; [reflexivity | now rewrite IH]. Qed.

Lemma map_group3_rev old new : forall n ds,
  (List.length ds <= n)%nat ->
  forallb (not_char old) ds = true ->
  map (fun c => if Ascii.eqb c old then new else c) (group3_rev old ds)
  = group3_rev new ds.
Proof.
  assert (Hid : forall l, forallb (not_char old) l = true ->
                          map (fun c => if Ascii.eqb c old then new else c) l = l).
  { induction l as [|c l IHl]; simpl; [reflexivity|]. intros H.
    apply andb_true_iff in H as [Hc Hl]. unfold not_char in Hc.
    apply negb_true_iff in Hc. now rewrite Hc, IHl. }
  induction n as [|n IH]; intros ds Hn H.
  - destruct ds; [reflexivity | simpl in Hn; lia].
  - destruct ds as [|a [|b [|c [|d rest]]]]; try (now apply Hid).
    rewrite !group3_rev_step.
    change (forallb (not_char old) (a :: b :: c :: d :: rest))
      with (not_char old a && (not_char old b && (not_char old c
              && forallb (not_char old) (d :: rest)))) in H.
    apply andb_true_iff in H as [Ha H]. apply andb_true_iff in H as [Hb H].
    apply andb_true_iff in H as [Hc H].
    unfold not_char in Ha, Hb, Hc. apply negb_true_iff in Ha, Hb, Hc.
    cbn [map]. rewrite Ha, Hb, Hc, Ascii.eqb_refl.
    rewrite IH; [reflexivity | simpl in Hn |- *; lia | exact H].
Qed.

Lemma replace_group_thousands old new s :
  all_chars (not_char old) s = true ->
  replace old new (group_thousands old s) = group_thousands new s.
Proof.
  intros H. unfold group_thousands.
  rewrite replace_of_list, map_rev. do 2 f_equal.
  apply (map_group3_rev old new _ _ (le_n _)).
  now rewrite forallb_rev, all_chars_to_list.
Qed.


Lemma digit_is_digit_or_comma c : is_digit c = true -> is_digit_or_comma c = true.
Proof. destruct c as [[] [] [] [] [] [] [] []]; vm_compute; congruence. Qed.

Lemma digit_not_char sep c :
  is_digit sep = false -> is_digit c = true -> not_char sep c = true.
Proof.
  intros Hs Hc. unfold not_char. apply negb_true_iff.
  destruct (Ascii.eqb_spec c sep) as [-> | _]; [congruence | reflexivity].
Qed.

Lemma digits_not_char sep n : is_digit sep = false -> all_chars (not_char sep) (digits n) = true.
Proof.
  intros Hs. apply (all_chars_weaken is_digit); [|apply all_chars_digits].
  intros c. now apply digit_not_char.
Qed.





(** ** The records the script builds *)

Lemma format_amount_returns v currency nf :
  exists out, format_amount v currency nf = Ok out.
Proof.
  unfold format_amount. destruct (format_amount_try v currency nf); eexists; reflexivity.
Qed.

Lemma add_fmt_formatted currency nf ls :
  exists items,
    add_fmt currency nf ls = Ok items /\ Forall2 (formatted currency nf) ls items.
Proof.
  induction ls as [|x ls [items [E F]]].
  - exists []. split; [reflexivity | constructor].
  - destruct (format_amount_returns (VFloat (amount x)) currency nf) as [s Hs].
    exists ({| entry := x; fmt := s |} :: items). split.
    + cbn [add_fmt]. rewrite Hs. cbn [bind]. rewrite E. reflexivity.
    + constructor; [split; [reflexivity | exact Hs] | exact F].
Qed.

(** The script never fails, and its record holds the line items with
    their formatted amounts and the formatted totals. *)
Lemma build_data_fields f :
  exists data,
    build_data f = Ok data
    /\ Forall2 (formatted (in_currency f) (in_number_format f))
         (in_allowances f) (allowances data)
    /\ Forall2 (formatted (in_currency f) (in_number_format f))
         (in_deductions f) (deductions data)
    /\ Forall2 (formatted (in_currency f) (in_number_format f))
         (in_benefits f) (benefits data)
    /\ format_amount (val_of_num (total_earnings f)) (in_currency f) (in_number_format f)
       = Ok (fmt_total_earnings data)
    /\ format_amount (val_of_num (total_deductions f)) (in_currency f) (in_number_format f)
       = Ok (fmt_total_deductions data)
    /\ format_amount (val_of_num (net_pay f)) (in_currency f) (in_number_format f)
       = Ok (fmt_net_pay data).
Proof.
  unfold build_data.
  destruct (add_fmt_formatted (in_currency f) (in_number_format f) (in_benefits f))
    as [bs [Eb Fb]].
  destruct (add_fmt_formatted (in_currency f) (in_number_format f) (in_allowances f))
    as [als [Ea Fa]].
  destruct (add_fmt_formatted (in_currency f) (in_number_format f) (in_deductions f))
    as [ds [Ed Fd]].
  rewrite Eb. cbn [bind].
  repeat match goal with
         | |- context [bind (format_amount ?v ?c ?n)] =>
             let s := fresh "s" in
             let Hs := fresh "Hs" in
             destruct (format_amount_returns v c n) as [s Hs];
             rewrite Hs; cbn [bind]
         end.
  rewrite Ea. cbn [bind]. rewrite Ed. cbn [bind].
  eexists. split; [reflexivity|]. cbn [allowances deductions benefits
    fmt_total_earnings fmt_total_deductions fmt_net_pay].
  repeat split; assumption.
Qed.

(** ** Payroll totals *)

Lemma fold_sum_float xs : forall acc,
  num_to_float (fold_left (fun acc x => num_add acc (NFloat (amount x))) xs acc)
  = fold_left (fun acc x => fadd acc (amount x)) xs (num_to_float acc).
Proof.
  induction xs as [|x xs IH]; intros acc; [reflexivity|].
  cbn [fold_left]. rewrite IH. f_equal. destruct acc; reflexivity.
Qed.

Lemma py_sum_float xs : num_to_float (py_sum xs) = float_sum xs.
Proof. apply fold_sum_float. Qed.

Lemma py_sum_amounts xs ys :
  map amount xs = map amount ys -> py_sum xs = py_sum ys.
Proof.
  unfold py_sum. generalize (NInt 0).
  revert ys. induction xs as [|x xs IH]; intros [|y ys] acc H; try discriminate.
  - reflexivity.
  - cbn [map] in H. injection H as Hxy Hrest.
    cbn [fold_left]. rewrite Hxy. now apply IH.
Qed.

Lemma total_earnings_is_float f :
  total_earnings f
  = NFloat (fadd (fadd (in_base_salary f) (calc_ot_amount f))
                 (num_to_float (total_allowances f))).
Proof. unfold total_earnings. destruct (total_allowances f); reflexivity. Qed.

(** C2. Total earnings are base salary plus overtime amount (hours times
    rate) plus the sum of the allowances, and net pay is total earnings
    minus the sum of the deductions, in the program's float arithmetic; on
    the figures of the specification this gives 3700 and 3400. These are
    the totals the record shows, formatted. *)
Theorem C2_totals :
  forall f : form,
    num_to_float (total_earnings f)
    = fadd (fadd (in_base_salary f) (fmul (in_ot_hours f) (in_ot_rate f)))
           (float_sum (in_allowances f))
    /\ num_to_float (net_pay f)
       = fsub (num_to_float (total_earnings f)) (float_sum (in_deductions f))
    /\ (in_base_salary f = float_of_Z 3000 ->
        in_ot_hours f = float_of_Z 10 ->
        in_ot_rate f = float_of_Z 20 ->
        map amount (in_allowances f) = [float_of_Z 500] ->
        total_earnings f = NFloat (float_of_Z 3700))
    /\ (total_earnings f = NFloat (float_of_Z 3700) ->
        map amount (in_deductions f) = [float_of_Z 300] ->
        net_pay f = NFloat (float_of_Z 3400))
    /\ exists data,
         build_data f = Ok data
         /\ format_amount (val_of_num (total_earnings f))
              (in_currency f) (in_number_format f) = Ok (fmt_total_earnings data)
         /\ format_amount (val_of_num (net_pay f))
              (in_currency f) (in_number_format f) = Ok (fmt_net_pay data).
Proof.
  intros f. split; [|split; [|split; [|split]]].
  - unfold total_earnings, total_allowances, calc_ot_amount.
    rewrite <- py_sum_float. destruct (py_sum (in_allowances f)); reflexivity.
  - unfold net_pay, total_deductions. rewrite <- py_sum_float.
    rewrite total_earnings_is_float.
    destruct (py_sum (in_deductions f)); reflexivity.
  - intros Hb Hh Hr Ha.
    unfold total_earnings, total_allowances, calc_ot_amount.
    rewrite Hb, Hh, Hr.
    rewrite (py_sum_amounts _ [mk_line EmptyString 500]) by exact Ha.
    vm_compute. reflexivity.
  - intros Ht Hd. unfold net_pay, total_deductions. rewrite Ht.
    rewrite (py_sum_amounts _ [mk_line EmptyString 300]) by exact Hd.
    vm_compute. reflexivity.
  - destruct (build_data_fields f) as (data & Hd & _ & _ & _ & He & _ & Hn).
    exists data. repeat split; assumption.
Qed.

Lemma C2_totals_witness :
  total_earnings (sample_form [mk_line "Transport" 500] [mk_line "Tax" 300] [])
  = NFloat (float_of_Z 3700)
  /\ net_pay (sample_form [mk_line "Transport" 500] [mk_line "Tax" 300] [])
     = NFloat (float_of_Z 3400).
Proof.
  pose proof (C2_totals (sample_form [mk_line "Transport" 500] [mk_line "Tax" 300] []))
    as (_ & _ & He & Hn & _).
  assert (Ht := He eq_refl eq_refl eq_refl eq_refl).
  split; [exact Ht | exact (Hn Ht eq_refl)].
Defined.

(** * The layout *)

Local Open Scope Q_scope.


Lemma height_ge_160 : 160 <= height.
Proof. vm_compute. discriminate. Qed.

Lemma Qltb_true x y : Qltb x y = true -> x < y.
Proof.
  unfold Qltb. intros H. apply negb_true_iff in H.
  apply Qnot_le_lt. intros Hle. apply Qle_bool_iff in Hle. congruence.
Qed.

Lemma Qltb_false x y : Qltb x y = false -> y <= x.
Proof.
  unfold Qltb. intros H. apply negb_false_iff in H. now apply Qle_bool_iff.
Qed.

(** ** The stream of operators *)

Lemma all_ops_emit o c : all_ops (emit o c) = (all_ops c ++ [o])%list.
Proof. unfold all_ops, emit. cbn [pages code]. now rewrite app_assoc. Qed.

Lemma all_ops_showPage c : all_ops (showPage c) = all_ops c.
Proof.
  unfold all_ops, showPage. cbn [pages code].
  rewrite concat_app. cbn [List.concat]. now rewrite !app_nil_r.
Qed.

Lemma concat_save c : List.concat (save c) = all_ops c.
Proof.
  unfold save. destruct (code c) eqn:E.
  - unfold all_ops. now rewrite E, app_nil_r.
  - rewrite <- all_ops_showPage. unfold all_ops. cbn [showPage pages code].
    now rewrite app_nil_r.
Qed.

(** ** Steps *)

Section Steps.

Variable P : op -> Prop.

Lemma steps_trans a b c : steps P a b -> steps P b c -> steps P a c.
Proof.
  intros Hab Hbc. induction Hbc as [|c' o _ IH Ho|c' _ IH].
  - exact Hab.
  - now apply steps_emit.
  - now apply steps_showPage.
Qed.

Lemma steps_weaken (R : op -> Prop) a b :
  (forall o, P o -> R o) -> steps P a b -> steps R a b.
Proof.
  intros HPR H. induction H as [|c' o _ IH Ho|c' _ IH].
  - apply steps_refl.
  - apply steps_emit; auto.
  - now apply steps_showPage.
Qed.

(** Steps only add to the stream of operators. *)
Lemma steps_all_ops a b :
  steps P a b -> exists new, all_ops b = (all_ops a ++ new)%list /\ Forall P new.
Proof.
  intros H. induction H as [|c' o _ [new [E F]] Ho|c' _ [new [E F]]].
  - exists []. split; [now rewrite app_nil_r | constructor].
  - exists (new ++ [o])%list. split.
    + now rewrite all_ops_emit, E, app_assoc.
    + apply Forall_app. split; [exact F | now constructor].
  - exists new. split; [now rewrite all_ops_showPage | exact F].
Qed.

(** Pages, when the steps start on the first page. *)
Lemma steps_pages a b :
  steps P a b -> pages a = [] ->
  (pages b = [] /\ exists body, code b = (code a ++ body)%list /\ Forall P body)
  \/ (exists body rest,
        pages b = (code a ++ body)%list :: rest
        /\ Forall P body /\ Forall (Forall P) rest /\ Forall P (code b)).
Proof.
  intros H Ha. induction H as [|c' o _ IH Ho|c' _ IH].
  - left. split; [exact Ha|]. exists []. split; [now rewrite app_nil_r | constructor].
  - destruct IH as [[Hp (body & Hc & Hb)] | (body & rest & Hp & Hb & Hr & Hc)].
    + left. split; [exact Hp|]. exists (body ++ [o])%list. cbn [emit code]. split.
      * now rewrite Hc, app_assoc.
      * apply Forall_app. split; [exact Hb | now constructor].
    + right. exists body, rest. cbn [emit pages code].
      repeat split; auto. apply Forall_app. split; [exact Hc | now constructor].
  - destruct IH as [[Hp (body & Hc & Hb)] | (body & rest & Hp & Hb & Hr & Hc)].
    + right. exists body, []. cbn [showPage pages code]. rewrite Hp, Hc.
      repeat split; auto.
    + right. exists body, (rest ++ [code c'])%list. cbn [showPage pages code].
      rewrite Hp. repeat split; auto.
      apply Forall_app. split; [exact Hr | now constructor].
Qed.

End Steps.

(** ** The page check *)

Lemma check_page_spec c y :
  (y < 80 -> check_page c y = (showPage c, height - 80))
  /\ (80 <= y -> check_page c y = (c, y)).
Proof.
  unfold check_page. destruct (Qltb y 80) eqn:E.
  - split; [reflexivity|]. apply Qltb_true in E. intros H. exfalso. lra.
  - split; [|reflexivity]. apply Qltb_false in E. intros H. exfalso. lra.
Qed.

Lemma check_page_steps P c0 c y :
  steps P c0 c ->
  steps P c0 (fst (check_page c y)) /\ 80 <= snd (check_page c y).
Proof.
  intros H. unfold check_page. destruct (Qltb y 80) eqn:E; cbn [fst snd].
  - split; [now apply steps_showPage|]. pose proof height_ge_160. lra.
  - split; [exact H | now apply Qltb_false].
Qed.

Lemma body_op_weaken k k' o : k' <= k -> body_op k o -> body_op k' o.
Proof.
  intros Hk [Ha Hh]. split; [|exact Hh].
  destruct o; simpl in *; try exact I; lra.
Qed.

Ltac solve_body :=
  split; [simpl; first [exact I | lra] | vm_compute; reflexivity].

Ltac emits :=
  repeat (apply steps_emit; [| solve_body]).

Lemma deduction_cell_steps k deds i y c0 c :
  k <= y -> steps (body_op k) c0 c -> steps (body_op k) c0 (deduction_cell deds i y c).
Proof.
  intros Hy H. unfold deduction_cell.
  destruct (i <? Datatypes.length deds)%nat; [|exact H].
  destruct (nth_error deds i); [|exact H].
  unfold drawRightString, drawString. emits. exact H.
Qed.

(** ** The blocks *)

Lemma ledger_header_steps c0 c y :
  steps (body_op 66) c0 c ->
  steps (body_op 66) c0 (fst (ledger_header c y)) /\ 66 <= snd (ledger_header c y).
Proof.
  intros H. unfold ledger_header.
  destruct (check_page_steps (body_op 66) c0 c (y - 28) H) as [Hs Hy].
  destruct (check_page c (y - 28)) as [c1 y1]. cbn [fst snd] in *.
  unfold setFont, drawString. split; [|lra]. emits. exact Hs.
Qed.

Lemma ledger_header_at_80 c0 c y :
  steps (body_op 80) c0 c -> steps (body_op 80) c0 (fst (ledger_header c y)).
Proof.
  intros H. unfold ledger_header.
  destruct (check_page_steps (body_op 80) c0 c (y - 28) H) as [Hs Hy].
  destruct (check_page c (y - 28)) as [c1 y1]. cbn [fst snd] in *.
  unfold setFont, drawString. emits. exact Hs.
Qed.

Lemma base_salary_row_steps data c0 c y :
  66 <= y -> steps (body_op 66) c0 c ->
  steps (body_op 66) c0 (fst (base_salary_row data c y))
  /\ 80 <= snd (base_salary_row data c y).
Proof.
  intros Hy H. unfold base_salary_row. apply check_page_steps.
  apply deduction_cell_steps; [exact Hy|].
  unfold drawRightString, drawString. emits. exact H.
Qed.

Lemma overtime_row_steps data c0 c y :
  80 <= y -> steps (body_op 80) c0 c ->
  steps (body_op 80) c0 (fst (overtime_row data c y))
  /\ 80 <= snd (overtime_row data c y).
Proof.
  intros Hy H. unfold overtime_row. apply check_page_steps.
  apply deduction_cell_steps; [exact Hy|].
  unfold drawRightString, drawString. emits. exact H.
Qed.

Lemma allowance_rows_steps deds als : forall i c0 c y,
  80 <= y -> steps (body_op 80) c0 c ->
  steps (body_op 80) c0 (fst (allowance_rows deds i als c y))
  /\ 80 <= snd (allowance_rows deds i als c y).
Proof.
  induction als as [|a als IH]; intros i c0 c y Hy H.
  - split; [exact H | exact Hy].
  - cbn [allowance_rows].
    assert (Hrow : steps (body_op 80) c0
                     (deduction_cell deds (2 + i) y
                        (drawRightString 360 y (fmt a) (drawString 40 y (label a) c)))).
    { apply deduction_cell_steps; [exact Hy|].
      unfold drawRightString, drawString. emits. exact H. }
    destruct (check_page_steps _ _ _ (y - 14) Hrow) as [Hs Hy'].
    destruct (check_page _ (y - 14)) as [c1 y1]. cbn [fst snd] in *.
    now apply IH.
Qed.

Lemma totals_steps data c0 c y :
  80 <= y -> steps (body_op 48) c0 c ->
  steps (body_op 48) c0 (fst (totals data c y)) /\ 80 <= snd (totals data c y).
Proof.
  intros Hy H. unfold totals. apply check_page_steps.
  unfold setFont, drawRightString, drawString. emits. exact H.
Qed.

Lemma benefit_rows_steps k bs : forall c0 c y,
  k <= 80 -> k <= y -> steps (body_op k) c0 c ->
  steps (body_op k) c0 (fst (benefit_rows bs c y)) /\ k <= snd (benefit_rows bs c y).
Proof.
  induction bs as [|b bs IH]; intros c0 c y Hk Hy H.
  - split; [exact H | exact Hy].
  - cbn [benefit_rows].
    assert (Hrow : steps (body_op k) c0
                     (drawRightString 560 y (fmt b) (drawString 40 y (label b) c))).
    { unfold drawRightString, drawString. emits. exact H. }
    destruct (check_page_steps _ _ _ (y - 12) Hrow) as [Hs Hy'].
    destruct (check_page _ (y - 12)) as [c1 y1]. cbn [fst snd] in *.
    apply IH; [exact Hk | lra | exact Hs].
Qed.

Lemma employer_paid_benefits_steps data c0 c y :
  80 <= y -> steps (body_op 64) c0 c ->
  steps (body_op 64) c0 (fst (employer_paid_benefits data c y))
  /\ 64 <= snd (employer_paid_benefits data c y).
Proof.
  intros Hy H. unfold employer_paid_benefits.
  apply benefit_rows_steps; [lra | lra |].
  unfold setFont, drawString. emits. exact H.
Qed.

Lemma nonfinancial_rows_steps k bs : forall c0 c y,
  k <= 80 -> k <= y -> steps (body_op k) c0 c ->
  steps (body_op k) c0 (fst (nonfinancial_rows bs c y))
  /\ k <= snd (nonfinancial_rows bs c y).
Proof.
  induction bs as [|b bs IH]; intros c0 c y Hk Hy H.
  - split; [exact H | exact Hy].
  - cbn [nonfinancial_rows].
    assert (Hrow : steps (body_op k) c0 (drawString 40 y ("- " ++ item_repr b) c)).
    { unfold drawString. emits. exact H. }
    destruct (check_page_steps _ _ _ (y - 12) Hrow) as [Hs Hy'].
    destruct (check_page _ (y - 12)) as [c1 y1]. cbn [fst snd] in *.
    apply IH; [exact Hk | lra | exact Hs].
Qed.

Lemma nonfinancial_benefits_steps data c0 c y :
  64 <= y -> steps (body_op 48) c0 c ->
  steps (body_op 48) c0 (fst (nonfinancial_benefits data c y))
  /\ 48 <= snd (nonfinancial_benefits data c y).
Proof.
  intros Hy H. unfold nonfinancial_benefits.
  apply nonfinancial_rows_steps; [lra | lra |].
  unfold setFont, drawString. emits. exact H.
Qed.


(** ** The renderer block by block *)

Lemma render_stages data logo : render data logo = fst (after_nonfinancial data).
Proof.
  unfold render, after_nonfinancial, after_benefits, after_totals, after_ledger,
    after_base_salary, after_ledger_header, after_employee.
  destruct (company_info data _ _) as [c1 y1].
  destruct (employee_info data c1 y1) as [c2 y2].
  destruct (ledger_header c2 y2) as [c3 y3].
  destruct (base_salary_row data c3 y3) as [c4 y4].
  destruct (overtime_row data c4 y4) as [c5 y5].
  destruct (allowance_rows _ _ _ c5 y5) as [c6 y6].
  destruct (totals data c6 y6) as [c7 y7].
  destruct (employer_paid_benefits data c7 y7) as [c8 y8].
  destruct (nonfinancial_benefits data c8 y8) as [c9 y9].
  reflexivity.
Qed.

Ltac emits_nh := repeat (apply steps_emit; [| vm_compute; reflexivity]).

Lemma address_lines_steps lines : forall c0 c y,
  steps not_header c0 c -> steps not_header c0 (fst (address_lines lines c y)).
Proof.
  induction lines as [|l lines IH]; intros c0 c y H; [exact H|].
  cbn [address_lines]. apply IH. unfold drawString. emits_nh. exact H.
Qed.

Lemma company_info_steps data c0 y :
  steps not_header c0 (fst (company_info data c0 y)).
Proof.
  unfold company_info.
  pose proof (address_lines_steps (split_newline (company_address data)) c0
                (setFont "Helvetica" 10
                   (drawString 40 y (company_name data)
                      (setFont "Helvetica-Bold" 11 c0)))
                (y - 14)) as Ha.
  destruct (address_lines _ _ _) as [c1 y1]. cbn [fst] in *.
  unfold setFont, drawString in *.
  apply steps_emit; [|vm_compute; reflexivity].
  apply Ha. emits_nh. apply steps_refl.
Qed.

Lemma employee_info_steps data c0 c y :
  steps not_header c0 c -> steps not_header c0 (fst (employee_info data c y)).
Proof.
  intros H. unfold employee_info, setFont, drawString. cbn [fst].
  emits_nh. exact H.
Qed.

Lemma after_employee_steps data :
  steps not_header (header_block data new_canvas) (fst (after_employee data)).
Proof.
  unfold after_employee.
  pose proof (company_info_steps data (header_block data new_canvas) (height - 110)) as H.
  destruct (company_info data _ _) as [c1 y1]. cbn [fst] in H.
  now apply employee_info_steps.
Qed.

Lemma after_ledger_header_steps data :
  steps (body_op 80) (fst (after_employee data)) (fst (after_ledger_header data))
  /\ 66 <= snd (after_ledger_header data).
Proof.
  unfold after_ledger_header. destruct (after_employee data) as [c y]. cbn [fst].
  split.
  - apply ledger_header_at_80, steps_refl.
  - apply (ledger_header_steps c c y), steps_refl.
Qed.

Lemma after_base_salary_steps data :
  steps (body_op 66) (fst (after_ledger_header data)) (fst (after_base_salary data))
  /\ 80 <= snd (after_base_salary data).
Proof.
  pose proof (after_ledger_header_steps data) as [_ Hy].
  unfold after_base_salary. destruct (after_ledger_header data) as [c y].
  cbn [fst snd] in *. apply base_salary_row_steps; [exact Hy | apply steps_refl].
Qed.

Lemma after_ledger_steps data :
  steps (body_op 80) (fst (after_base_salary data)) (fst (after_ledger data))
  /\ 80 <= snd (after_ledger data).
Proof.
  pose proof (after_base_salary_steps data) as [_ Hy].
  unfold after_ledger. destruct (after_base_salary data) as [c y].
  cbn [fst snd] in *.
  destruct (overtime_row_steps data c c y Hy (steps_refl _ _)) as [Hs Hy'].
  destruct (overtime_row data c y) as [c1 y1]. cbn [fst snd] in *.
  now apply allowance_rows_steps.
Qed.

Lemma after_totals_steps data :
  steps (body_op 48) (fst (after_ledger data)) (fst (after_totals data))
  /\ 80 <= snd (after_totals data).
Proof.
  pose proof (after_ledger_steps data) as [_ Hy].
  unfold after_totals. destruct (after_ledger data) as [c y].
  cbn [fst snd] in *. apply totals_steps; [exact Hy | apply steps_refl].
Qed.

Lemma after_benefits_steps data :
  steps (body_op 64) (fst (after_totals data)) (fst (after_benefits data))
  /\ 64 <= snd (after_benefits data).
Proof.
  pose proof (after_totals_steps data) as [_ Hy].
  unfold after_benefits. destruct (after_totals data) as [c y].
  cbn [fst snd] in *. apply employer_paid_benefits_steps; [exact Hy | apply steps_refl].
Qed.

Lemma after_nonfinancial_steps data :
  steps (body_op 48) (fst (after_benefits data)) (fst (after_nonfinancial data)).
Proof.
  pose proof (after_benefits_steps data) as [_ Hy].
  unfold after_nonfinancial. destruct (after_benefits data) as [c y].
  cbn [fst snd] in *. apply nonfinancial_benefits_steps; [exact Hy | apply steps_refl].
Qed.

(** From the end of the employee block on, every row is drawn with the
    cursor at 48 or above. *)
Lemma body_steps data :
  steps (body_op 48) (fst (after_employee data)) (fst (after_nonfinancial data)).
Proof.
  assert (W : forall k a b, 48 <= k -> steps (body_op k) a b -> steps (body_op 48) a b).
  { intros k a b Hk. apply steps_weaken. intros o. now apply body_op_weaken. }
  eapply steps_trans; [|apply after_nonfinancial_steps].
  eapply steps_trans; [|apply (W 64); [lra | apply after_benefits_steps]].
  eapply steps_trans; [|apply after_totals_steps].
  eapply steps_trans; [|apply (W 80); [lra | apply after_ledger_steps]].
  eapply steps_trans; [|apply (W 66); [lra | apply after_base_salary_steps]].
  apply (W 80); [lra | apply after_ledger_header_steps].
Qed.

Lemma segment_steps P a b :
  steps P (fst a) (fst b) ->
  all_ops (fst b) = (all_ops (fst a) ++ segment a b)%list /\ Forall P (segment a b).
Proof.
  intros H. destruct (steps_all_ops _ _ _ H) as [new [E F]].
  assert (Hs : segment a b = new).
  { unfold segment. rewrite E, skipn_app, skipn_all, Nat.sub_diag. reflexivity. }
  rewrite Hs. split; [exact E | exact F].
Qed.

Lemma Forall_at_least k l : Forall (body_op k) l -> Forall (at_least k) l.
Proof. apply Forall_impl. now intros o [H _]. Qed.


(** ** Counting the cells of the deductions column *)

Lemma all_ops_check_page c y : all_ops (fst (check_page c y)) = all_ops c.
Proof.
  unfold check_page. destruct (Qltb y 80); [apply all_ops_showPage | reflexivity].
Qed.

Lemma count_emit p o c :
  count_ops p (all_ops (emit o c))
  = (count_ops p (all_ops c) + (if p o then 1 else 0))%nat.
Proof.
  unfold count_ops. rewrite all_ops_emit, filter_app, length_app.
  cbn [filter]. now destruct (p o).
Qed.

Lemma count_check_page p c y :
  count_ops p (all_ops (fst (check_page c y))) = count_ops p (all_ops c).
Proof. now rewrite all_ops_check_page. Qed.

Lemma count_deduction_cell deds i y c :
  count_ops deduction_column (all_ops (deduction_cell deds i y c))
  = (count_ops deduction_column (all_ops c)
     + (if (i <? List.length deds)%nat then 1 else 0))%nat.
Proof.
  unfold deduction_cell.
  destruct (Nat.ltb_spec i (List.length deds)) as [Hlt | Hge]; [|lia].
  destruct (nth_error deds i) eqn:E.
  - unfold drawRightString, drawString. rewrite !count_emit.
    change (deduction_column (DrawRightString 560 y (fmt i0))) with false.
    change (deduction_column (DrawString 380 y (label i0))) with true.
    cbv iota. lia.
  - apply nth_error_None in E. lia.
Qed.

Ltac count_straight :=
  unfold setFont, drawRightString, drawString, setFillColor, rect;
  rewrite ?count_check_page, ?count_deduction_cell, ?count_emit;
  cbn [deduction_column];
  repeat match goal with
         | |- context [Qeq_bool ?a ?b] =>
             let v := eval vm_compute in (Qeq_bool a b) in
             change (Qeq_bool a b) with v
         end;
  cbv iota.

Lemma count_address_lines lines : forall c y,
  count_ops deduction_column (all_ops (fst (address_lines lines c y)))
  = count_ops deduction_column (all_ops c).
Proof.
  induction lines as [|l lines IH]; intros c y; [reflexivity|].
  cbn [address_lines]. rewrite IH. count_straight. lia.
Qed.

Lemma count_after_employee data :
  count_ops deduction_column (all_ops (fst (after_employee data))) = 0%nat.
Proof.
  unfold after_employee, company_info.
  pose proof (count_address_lines (split_newline (company_address data))
                (setFont "Helvetica" 10
                   (drawString 40 (height - 110) (company_name data)
                      (setFont "Helvetica-Bold" 11 (header_block data new_canvas))))
                (height - 110 - 14)) as Ha.
  destruct (address_lines _ _ _) as [c1 y1]. cbn [fst] in Ha.
  unfold employee_info. cbn [fst]. count_straight. rewrite Ha.
  unfold header_block. count_straight. reflexivity.
Qed.

Lemma count_allowance_rows deds als : forall i c y,
  count_ops deduction_column (all_ops (fst (allowance_rows deds i als c y)))
  = (count_ops deduction_column (all_ops c)
     + Nat.min (List.length als) (List.length deds - (2 + i)))%nat.
Proof.
  induction als as [|a als IH]; intros i c y.
  - cbn [allowance_rows fst Datatypes.length Nat.min]. lia.
  - cbn [allowance_rows].
    pose proof (count_check_page deduction_column
                  (deduction_cell deds (2 + i) y
                     (drawRightString 360 y (fmt a) (drawString 40 y (label a) c)))
                  (y - 14)) as Hc.
    destruct (check_page _ (y - 14)) as [c1 y1]. cbn [fst] in Hc.
    rewrite IH, Hc. count_straight. cbn [Datatypes.length].
    destruct (Nat.ltb_spec (2 + i) (List.length deds)); lia.
Qed.

Lemma count_benefit_rows bs : forall c y,
  count_ops deduction_column (all_ops (fst (benefit_rows bs c y)))
  = count_ops deduction_column (all_ops c).
Proof.
  induction bs as [|b bs IH]; intros c y; [reflexivity|].
  cbn [benefit_rows].
  pose proof (count_check_page deduction_column
                (drawRightString 560 y (fmt b) (drawString 40 y (label b) c))
                (y - 12)) as Hc.
  destruct (check_page _ (y - 12)) as [c1 y1]. cbn [fst] in Hc.
  rewrite IH, Hc. count_straight. lia.
Qed.

Lemma count_nonfinancial_rows bs : forall c y,
  count_ops deduction_column (all_ops (fst (nonfinancial_rows bs c y)))
  = count_ops deduction_column (all_ops c).
Proof.
  induction bs as [|b bs IH]; intros c y; [reflexivity|].
  cbn [nonfinancial_rows].
  pose proof (count_check_page deduction_column
                (drawString 40 y ("- " ++ item_repr b) c) (y - 12)) as Hc.
  destruct (check_page _ (y - 12)) as [c1 y1]. cbn [fst] in Hc.
  rewrite IH, Hc. count_straight. lia.
Qed.

(** The deductions column holds its heading, the total, and one cell per
    ledger row that has a deduction of the same index. *)
Lemma count_deduction_column data logo :
  count_ops deduction_column (List.concat (create_payslip_pdf data logo))
  = (2 + Nat.min (List.length (deductions data))
                 (2 + List.length (allowances data)))%nat.
Proof.
  unfold create_payslip_pdf. rewrite concat_save, render_stages.
  unfold after_nonfinancial, after_benefits, after_totals, after_ledger,
    after_base_salary, after_ledger_header.
  pose proof (count_after_employee data) as H0.
  destruct (after_employee data) as [c0 y0]. cbn [fst] in H0.
  unfold ledger_header.
  pose proof (count_check_page deduction_column c0 (y0 - 28)) as H1.
  destruct (check_page c0 (y0 - 28)) as [c1 y1]. cbn [fst] in H1.
  unfold base_salary_row.
  match goal with
  | |- context [check_page ?c ?y] =>
      pose proof (count_check_page deduction_column c y) as H2;
      destruct (check_page c y) as [c2 y2]
  end. cbn [fst] in H2.
  unfold overtime_row.
  match goal with
  | |- context [check_page ?c ?y] =>
      pose proof (count_check_page deduction_column c y) as H3;
      destruct (check_page c y) as [c3 y3]
  end. cbn [fst] in H3.
  pose proof (count_allowance_rows (deductions data) (allowances data) 0 c3 y3) as H4.
  destruct (allowance_rows _ _ _ c3 y3) as [c4 y4]. cbn [fst] in H4.
  unfold totals.
  match goal with
  | |- context [check_page ?c ?y] =>
      pose proof (count_check_page deduction_column c y) as H5;
      destruct (check_page c y) as [c5 y5]
  end. cbn [fst] in H5.
  unfold employer_paid_benefits.
  match goal with
  | |- context [benefit_rows ?bs ?c ?y] =>
      pose proof (count_benefit_rows bs c y) as H6;
      destruct (benefit_rows bs c y) as [c6 y6]
  end. cbn [fst] in H6.
  unfold nonfinancial_benefits. rewrite count_nonfinancial_rows.
  revert H2 H3 H5 H6. count_straight. intros H2 H3 H5 H6.
  rewrite H6, H5, H4, H3, H2, H1, H0.
  destruct (Nat.ltb_spec 0 (List.length (deductions data)));
    destruct (Nat.ltb_spec 1 (List.length (deductions data))); lia.
Qed.


(** ** The benefits lists *)






(** ** The header band *)

Lemma header_block_canvas data :
  header_block data new_canvas = {| pages := []; code := header_ops data |}.
Proof. reflexivity. Qed.

(** The first page starts with the header band, and nothing else in the
    document belongs to it. *)
Lemma header_then_body data logo :
  exists body rest,
    create_payslip_pdf data logo = (header_ops data ++ body)%list :: rest
    /\ Forall not_header body
    /\ Forall (Forall not_header) rest.
Proof.
  assert (Hs : steps not_header (header_block data new_canvas) (render data logo)).
  { rewrite render_stages.
    eapply steps_trans; [apply after_employee_steps|].
    eapply steps_weaken; [|apply body_steps]. now intros o [_ H]. }
  apply steps_pages in Hs; [|reflexivity].
  unfold create_payslip_pdf, save.
  change (code (header_block data new_canvas)) with (header_ops data) in Hs.
  destruct Hs as [[Hp (body & Hc & Hb)] | (body & rest & Hp & Hb & Hr & Hc)].
  - exists body, []. rewrite Hc. cbn [showPage pages]. rewrite Hp, Hc.
    destruct (header_ops data ++ body)%list eqn:E;
      [destruct body; discriminate E|].
    repeat split; auto.
  - destruct (code (render data logo)) eqn:E.
    + exists body, rest. repeat split; auto.
    + exists body, (rest ++ [code (render data logo)])%list.
      cbn [showPage pages]. rewrite Hp, E. repeat split; auto.
      apply Forall_app. split; [exact Hr|]. constructor; [|constructor].
      exact Hc.
Qed.

Lemma header_ops_list data :
  header_ops data =
    [ SetFillColor header_color;
      Rect 0 (height - 80) width 80;
      SetFillColor white;
      SetFont "Helvetica-Bold" 20;
      DrawString 120 (height - 45) "Payslip";
      SetFont "Helvetica" 10;
      DrawString 120 (height - 60) ("Date: " ++ date data);
      DrawRightString (width - 40) (height - 45) ("Payslip No: " ++ payslip_no data);
      SetFillColor text_color ].
Proof. reflexivity. Qed.

(** C7 (as amended). The header band (band, title, date, payslip number)
    is drawn once, at the top of the first page; no element of it is drawn
    on any other page, nor again on the first one. *)
Theorem C7_header_band_on_first_page_only :
  forall data logo,
    header_ops data =
      [ SetFillColor header_color;
        Rect 0 (height - 80) width 80;
        SetFillColor white;
        SetFont "Helvetica-Bold" 20;
        DrawString 120 (height - 45) "Payslip";
        SetFont "Helvetica" 10;
        DrawString 120 (height - 60) ("Date: " ++ date data);
        DrawRightString (width - 40) (height - 45) ("Payslip No: " ++ payslip_no data);
        SetFillColor text_color ]
    /\ exists body rest,
         create_payslip_pdf data logo = (header_ops data ++ body)%list :: rest
         /\ Forall not_header body
         /\ Forall (Forall not_header) rest.
Proof.
  intros data logo. split.
  - apply header_ops_list.
  - apply header_then_body.
Qed.

(** C7 as stated fails: with 35 allowances the document has two pages and
    the second one carries no element of the header band. *)
Lemma C7_counterexample_second_page :
  ~ (forall data logo pg,
        (1 < List.length (create_payslip_pdf data logo))%nat ->
        In pg (create_payslip_pdf data logo) ->
        existsb header_draw pg = true).
Proof.
  intros H.
  pose (data := two_pages).
  assert (Hlen : (1 < List.length (create_payslip_pdf data None))%nat)
    by (vm_compute; lia).
  specialize (H data None (nth 1 (create_payslip_pdf data None) []) Hlen
                (nth_In _ _ Hlen)).
  vm_compute in H. discriminate.
Qed.

(** ** The page check *)

(** C8 (as amended). The page check compares the cursor with the fixed
    threshold 80 and, below it, closes the page and restarts at
    [height - 80], which is not below the threshold. It runs before the
    ledger header and after each ledger row, after the net pay line and
    after each benefit row. Hence the ledger header, the overtime row and
    every allowance row are drawn with the cursor at 80 or above, and every
    row from the ledger header on with the cursor at 48 or above. *)
Theorem C8_page_check_bounds :
  forall data logo,
    (forall c y,
        (y < 80 -> check_page c y = (showPage c, height - 80))
        /\ (80 <= y -> check_page c y = (c, y))
        /\ 80 <= snd (check_page c y))
    /\ List.concat (create_payslip_pdf data logo)
       = (all_ops (fst (after_employee data))
            ++ segment (after_employee data) (after_nonfinancial data))%list
    /\ Forall (at_least 48) (segment (after_employee data) (after_nonfinancial data))
    /\ Forall (at_least 80) (segment (after_employee data) (after_ledger_header data))
    /\ Forall (at_least 80) (segment (after_base_salary data) (after_ledger data))
    /\ all_ops (fst (after_ledger data))
       = (all_ops (fst (after_base_salary data))
            ++ segment (after_base_salary data) (after_ledger data))%list.
Proof.
  intros data logo. split; [|split; [|split; [|split; [|split]]]].
  - intros c y. destruct (check_page_spec c y) as [H1 H2].
    split; [exact H1|]. split; [exact H2|].
    apply (check_page_steps (fun _ => True) c c y), steps_refl.
  - unfold create_payslip_pdf. rewrite concat_save, render_stages.
    apply (segment_steps _ _ _ (body_steps data)).
  - apply Forall_at_least, (segment_steps _ _ _ (body_steps data)).
  - apply Forall_at_least.
    apply (segment_steps _ (after_employee data) (after_ledger_header data)).
    apply after_ledger_header_steps.
  - apply Forall_at_least.
    apply (segment_steps _ (after_base_salary data) (after_ledger data)).
    apply after_ledger_steps.
  - apply (segment_steps (body_op 80) (after_base_salary data) (after_ledger data)).
    apply after_ledger_steps.
Qed.

Lemma C8_page_check_bounds_witness :
  check_page new_canvas 70 = (showPage new_canvas, height - 80)
  /\ Forall (at_least 80)
       (segment (after_base_salary two_pages) (after_ledger two_pages)).
Proof.
  destruct (C8_page_check_bounds two_pages None) as (Hc & _ & _ & _ & H80 & _).
  split; [apply (Hc new_canvas 70); reflexivity | exact H80].
Defined.

Lemma below_not_at_least k o : below k o = true -> ~ at_least k o.
Proof.
  destruct o; simpl; try discriminate; intros H Hk; apply Qltb_true in H; lra.
Qed.

(** C8 as stated fails: with 34 allowances the net pay line is drawn with
    the cursor below 80. *)
Lemma C8_counterexample_net_pay_row :
  ~ (forall data logo pg o,
        In pg (create_payslip_pdf data logo) -> In o pg -> at_least 80 o).
Proof.
  intros H.
  pose (data := sample_data (repeat transport 34) [tax] []).
  assert (E : existsb (existsb (fun o => draws_text "Net Pay:" o && below 80 o))
                (create_payslip_pdf data None) = true)
    by (vm_compute; reflexivity).
  apply existsb_exists in E as [pg [Hpg E]].
  apply existsb_exists in E as [o [Ho E]].
  apply andb_true_iff in E as [_ E].
  exact (below_not_at_least _ _ E (H data None pg o Hpg Ho)).
Qed.

(** ** The logo *)

(** C9. The renderer never reads its logo argument: the document rendered
    with a logo is the document rendered without one, and its header band
    is the band, the title, the date and the payslip number, with no
    image. *)
Theorem C9_logo_is_ignored :
  forall data logo,
    create_payslip_pdf data (Some logo) = create_payslip_pdf data None
    /\ exists body rest,
         create_payslip_pdf data (Some logo)
         = ([ SetFillColor header_color;
              Rect 0 (height - 80) width 80;
              SetFillColor white;
              SetFont "Helvetica-Bold" 20;
              DrawString 120 (height - 45) "Payslip";
              SetFont "Helvetica" 10;
              DrawString 120 (height - 60) ("Date: " ++ date data);
              DrawRightString (width - 40) (height - 45)
                ("Payslip No: " ++ payslip_no data);
              SetFillColor text_color ] ++ body)%list :: rest
         /\ Forall not_header body
         /\ Forall (Forall not_header) rest.
Proof.
  intros data logo. split; [reflexivity|].
  destruct (header_then_body data (Some logo)) as (body & rest & E & Hb & Hr).
  exists body, rest. rewrite <- header_ops_list. auto.
Qed.

(** ** The ledger *)

(** C5. The deductions column of the ledger holds, besides its heading
    and the total, one cell per ledger row that has a deduction of the same
    index: deductions beyond the ledger rows (two plus the number of
    allowances) are not drawn. With no allowance and three deductions the
    first two are drawn and the third is drawn nowhere in the document. *)
Theorem C5_deductions_beyond_ledger_rows_dropped :
  (forall data logo,
      count_ops deduction_column (List.concat (create_payslip_pdf data logo))
      = (2 + Nat.min (List.length (deductions data))
                     (2 + List.length (allowances data)))%nat)
  /\ existsb (existsb (draws_text "Tax")) (create_payslip_pdf three_deductions None) = true
  /\ existsb (existsb (draws_text "Pension")) (create_payslip_pdf three_deductions None) = true
  /\ existsb (existsb (draws_text "Loan")) (create_payslip_pdf three_deductions None) = false.
Proof.
  split; [exact count_deduction_column|].
  vm_compute. repeat split.
Qed.

(** * Further properties *)

Local Close Scope Q_scope.

(** ** More on the formatter *)

Lemma rounds_half_even_compat q q' n :
  (q == q')%Q -> rounds_half_even q n -> rounds_half_even q' n.
Proof.
  unfold rounds_half_even. intros H (A & B & C).
  split; [now rewrite <- H|]. split; [now rewrite <- H|].
  intros [E | E]; apply C; [left | right]; now rewrite H.
Qed.

Lemma scaled_round_spec k m e :
  0 <= k ->
  rounds_half_even (inject_Z k * Q_of_mant_exp (Zpos m) e) (scaled_round k m e).
Proof.
  intros Hk. unfold scaled_round, Q_of_mant_exp. destruct e as [|p|p].
  - apply (rounds_half_even_compat (inject_Z (k * Z.pos m * 2 ^ 0))).
    + rewrite <- inject_Z_mult. now rewrite Z.mul_assoc.
    + apply rounds_half_even_exact.
  - apply (rounds_half_even_compat (inject_Z (k * Z.pos m * 2 ^ Z.pos p))).
    + rewrite <- inject_Z_mult. now rewrite Z.mul_assoc.
    + apply rounds_half_even_exact.
  - apply (rounds_half_even_compat ((k * Z.pos m) # (2 ^ p))).
    + unfold Qeq, Qmult, inject_Z. cbn [Qnum Qden]. lia.
    + rewrite <- Pos2Z.inj_pow. apply round_half_even_div_spec. nia.
Qed.

Lemma swap_separators_app a b :
  swap_separators (a ++ b) = swap_separators a ++ swap_separators b.
Proof. induction a as [|c a IH]; simpl; [reflexivity | now rewrite IH]. Qed.

Lemma swap_is_replace s :
  all_chars (not_char ".") s = true -> swap_separators s = replace "," "." s.
Proof.
  induction s as [|c s IH]; [reflexivity|].
  cbn [all_chars swap_separators replace]. intros H.
  apply andb_true_iff in H as [Hc Hs]. rewrite (IH Hs). f_equal.
  unfold swap_char. destruct (Ascii.eqb c ","); [reflexivity|].
  unfold not_char in Hc. apply negb_true_iff in Hc. now rewrite Hc.
Qed.

Lemma digit_or_comma_not_dot c : is_digit_or_comma c = true -> not_char "." c = true.
Proof. destruct c as [[] [] [] [] [] [] [] []]; vm_compute; congruence. Qed.

Lemma digit_not_separator c : is_digit c = true -> not_separator c = true.
Proof. destruct c as [[] [] [] [] [] [] [] []]; vm_compute; congruence. Qed.

Lemma swap_group_thousands n :
  swap_separators (group_thousands "," (digits n)) = group_thousands "." (digits n).
Proof.
  rewrite swap_is_replace.
  - apply replace_group_thousands, digits_not_char. reflexivity.
  - apply (all_chars_weaken is_digit_or_comma); [exact digit_or_comma_not_dot|].
    apply all_chars_group; [reflexivity|].
    apply (all_chars_weaken is_digit); [exact digit_is_digit_or_comma | apply all_chars_digits].
Qed.

Lemma swap_sign_str s : swap_separators (sign_str s) = sign_str s.
Proof. now destruct s. Qed.

Lemma swap_two_digits r : 0 <= r < 100 -> swap_separators (two_digits r) = two_digits r.
Proof.
  intros H. apply swap_separators_id.
  apply (all_chars_weaken is_digit); [exact digit_not_separator|].
  now apply all_chars_two_digits.
Qed.

(** The formatter on a currency of the table other than IDR. *)
Lemma format_amount_decimal currency sym v nf :
  currency <> "IDR" ->
  dict_get CURRENCY_SYMBOLS currency = Ok sym ->
  format_amount v currency nf =
  match format_comma_2f v with
  | Ok s =>
      Ok (sym ++ " " ++ (if String.eqb nf "EU"
                         then replace "X" "." (replace "." "," (replace "," "X" s))
                         else s))
  | Raise _ => Ok (py_str v)
  end.
Proof.
  intros Hne Hsym. unfold format_amount, format_amount_try.
  destruct (String.eqb_spec currency "IDR") as [E | _]; [contradiction|].
  destruct (format_comma_2f v); [|reflexivity].
  cbn [bind]. rewrite Hsym. reflexivity.
Qed.

(** X1. For a currency of the table other than IDR and a finite non-zero
    float, the output is the symbol, one space, a minus sign for a negative
    value, the integer part grouped in threes, the decimal separator and
    exactly two digits: the value rounded to hundredths, ties to even. The
    sign is kept when the rounded value is zero. *)
Theorem X1_two_decimals_rounded_to_cents :
  forall currency sym nf s m e,
    currency <> "IDR" ->
    dict_get CURRENCY_SYMBOLS currency = Ok sym ->
    exists n g,
      0 <= n
      /\ rounds_half_even (100 * Q_of_mant_exp (Zpos m) e) n
      /\ grouped_in_threes (thousands_sep nf) (digits (Z.to_N (n / 100))) g
      /\ format_amount (VFloat (S754_finite s m e)) currency nf
         = Ok (sym ++ " " ++ sign_str s ++ g
                 ++ String (decimal_sep nf)
                      (String (digit_char (n mod 100 / 10))
                         (String (digit_char (n mod 100 mod 10)) EmptyString))).
Proof.
  intros currency sym nf s m e Hne Hsym.
  set (n := scaled_round 100 m e).
  assert (Hn : 0 <= n) by (apply scaled_round_nonneg; lia).
  assert (Hr : 0 <= n mod 100 < 100) by (apply Z.mod_pos_bound; lia).
  exists n, (group_thousands (thousands_sep nf) (digits (Z.to_N (n / 100)))).
  split; [exact Hn|]. split; [apply (scaled_round_spec 100); lia|].
  split.
  { apply group_thousands_grouped, digits_not_char.
    unfold thousands_sep. now destruct (String.eqb nf "EU"). }
  rewrite (format_amount_decimal _ _ _ _ Hne Hsym).
  cbn [format_comma_2f format_float_comma_2f]. fold n.
  unfold thousands_sep, decimal_sep. destruct (String.eqb nf "EU").
  - rewrite replace_swap.
    + rewrite !swap_separators_app, swap_sign_str, swap_group_thousands.
      change (swap_separators ".") with ",".
      rewrite (swap_two_digits _ Hr). reflexivity.
    + apply (all_chars_weaken is_number_char); [exact number_char_not_X|].
      apply (format_float_chars (S754_finite s m e)).
  - reflexivity.
Qed.

Lemma X1_two_decimals_rounded_to_cents_witness :
  exists n g,
    0 <= n
    /\ rounds_half_even (100 * Q_of_mant_exp 2469135 (-1)) n
    /\ grouped_in_threes (thousands_sep "EU") (digits (Z.to_N (n / 100))) g
    /\ format_amount (VFloat (S754_finite true 2469135 (-1))) "EUR" "EU"
       = Ok (euro_sign ++ " " ++ sign_str true ++ g
               ++ String (decimal_sep "EU")
                    (String (digit_char (n mod 100 / 10))
                       (String (digit_char (n mod 100 mod 10)) EmptyString))).
Proof.
  apply (X1_two_decimals_rounded_to_cents "EUR" euro_sign "EU" true 2469135 (-1)).
  - discriminate.
  - reflexivity.
Defined.




(** X3. An infinite or NaN amount is shown as [inf], [-inf] or [nan]: for
    IDR the rounding fails and the fallback gives that text alone, without
    a symbol; for the other currencies of the table the text follows the
    symbol. This holds in every style. *)
Theorem X3_non_finite_amounts :
  forall f nf,
    non_finite f ->
    format_amount (VFloat f) "IDR" nf = Ok (float_repr f)
    /\ (forall currency sym,
           currency <> "IDR" ->
           dict_get CURRENCY_SYMBOLS currency = Ok sym ->
           format_amount (VFloat f) currency nf = Ok (sym ++ " " ++ float_repr f))
    /\ In (float_repr f) ["inf"; "-inf"; "nan"].
Proof.
  intros f nf Hf.
  destruct f as [s | s | | s m e]; simpl in Hf; try contradiction.
  - split; [reflexivity|]. split.
    + intros currency sym Hne Hsym. rewrite (format_amount_decimal _ _ _ _ Hne Hsym).
      destruct s, (String.eqb nf "EU"); reflexivity.
    + destruct s; simpl; tauto.
  - split; [reflexivity|]. split.
    + intros currency sym Hne Hsym. rewrite (format_amount_decimal _ _ _ _ Hne Hsym).
      destruct (String.eqb nf "EU"); reflexivity.
    + simpl; tauto.
Qed.

Lemma X3_non_finite_amounts_witness :
  format_amount (VFloat (S754_infinity false)) "IDR" "EU" = Ok "inf"
  /\ format_amount (VFloat (S754_infinity false)) "USD" "EU" = Ok "$ inf".
Proof.
  destruct (X3_non_finite_amounts (S754_infinity false) "EU" I) as (H1 & H2 & _).
  split; [exact H1 | apply (H2 "USD" "$"); [discriminate | reflexivity]].
Defined.

Local Open Scope Q_scope.

(** ** The rows of the ledger *)

Lemma all_ops_deduction_cell deds i y c :
  all_ops (deduction_cell deds i y c)
  = (all_ops c
     ++ match nth_error deds i with
        | Some d => [DrawString 380 y (label d); DrawRightString 560 y (fmt d)]
        | None => []
        end)%list.
Proof.
  unfold deduction_cell.
  destruct (Nat.ltb_spec i (List.length deds)) as [Hlt | Hge].
  - destruct (nth_error deds i).
    + unfold drawRightString, drawString. rewrite !all_ops_emit.
      now rewrite <- app_assoc.
    + now rewrite app_nil_r.
  - apply nth_error_None in Hge. rewrite Hge. now rewrite app_nil_r.
Qed.

Lemma all_ops_ledger_row deds i text amt y y' c :
  all_ops (fst (check_page
                  (deduction_cell deds i y
                     (drawRightString 360 y amt (drawString 40 y text c))) y'))
  = (all_ops c ++ ledger_row deds i text amt y)%list.
Proof.
  rewrite all_ops_check_page, all_ops_deduction_cell.
  unfold drawRightString, drawString, ledger_row. rewrite !all_ops_emit.
  now rewrite <- !app_assoc.
Qed.

Lemma allowance_rows_ops deds als : forall i c y,
  exists ys,
    List.length ys = List.length als
    /\ all_ops (fst (allowance_rows deds i als c y))
       = (all_ops c ++ allowance_ledger_rows deds (2 + i) als ys)%list.
Proof.
  induction als as [|a als IH]; intros i c y.
  - exists []. split; [reflexivity|].
    cbn [allowance_rows fst allowance_ledger_rows]. now rewrite app_nil_r.
  - cbn [allowance_rows].
    pose proof (all_ops_ledger_row deds (2 + i) (label a) (fmt a) y (y - 14) c) as Hrow.
    destruct (check_page _ (y - 14)) as [c1 y1]. cbn [fst] in Hrow.
    destruct (IH (S i) c1 y1) as [ys [Hl E]].
    exists (y :: ys). split; [cbn [Datatypes.length]; now rewrite Hl|].
    rewrite E, Hrow. cbn [allowance_ledger_rows]. now rewrite <- app_assoc.
Qed.

Lemma segment_app a b new :
  all_ops (fst b) = (all_ops (fst a) ++ new)%list -> segment a b = new.
Proof.
  intros E. unfold segment.
  now rewrite E, skipn_app, skipn_all, Nat.sub_diag.
Qed.

(** X4. Whatever the page breaks, the ledger is drawn row by row in the
    order of the record: the base salary row with the deduction of index 0,
    the overtime row with the deduction of index 1, then one row per
    allowance, the allowance of index [i] with the deduction of index
    [2 + i]; the two cells of a row share one cursor, and a row without a
    deduction of its index has an empty deduction cell. *)
Theorem X4_ledger_rows_pair_by_index :
  forall data,
  exists y0 y1 ys,
    List.length ys = List.length (allowances data)
    /\ segment (after_ledger_header data) (after_ledger data)
       = (ledger_row (deductions data) 0 "Base Salary" (fmt_base_salary data) y0
          ++ ledger_row (deductions data) 1 (overtime_text data) (fmt_ot_amount data) y1
          ++ allowance_ledger_rows (deductions data) 2 (allowances data) ys)%list.
Proof.
  intros data. unfold after_ledger, after_base_salary.
  destruct (after_ledger_header data) as [c y] eqn:E0.
  unfold base_salary_row, overtime_row.
  pose proof (all_ops_ledger_row (deductions data) 0 "Base Salary"
                (fmt_base_salary data) y (y - 14) c) as H1.
  destruct (check_page _ (y - 14)) as [c1 y1]. cbn [fst] in H1.
  pose proof (all_ops_ledger_row (deductions data) 1 (overtime_text data)
                (fmt_ot_amount data) y1 (y1 - 14) c1) as H2.
  unfold overtime_text in H2.
  destruct (check_page _ (y1 - 14)) as [c2 y2]. cbn [fst] in H2.
  destruct (allowance_rows_ops (deductions data) (allowances data) 0 c2 y2)
    as [ys [Hl E]].
  exists y, y1, ys. split; [exact Hl|].
  apply segment_app. cbn [fst]. unfold overtime_text.
  rewrite E, H2, H1. now rewrite <- !app_assoc.
Qed.

(** ** Blank pages *)

Lemma no_blank_emit o c : no_blank_page c -> no_blank_page (emit o c).
Proof. exact (fun H => H). Qed.

Lemma code_emit o c : code (emit o c) <> [].
Proof. cbn [emit code]. now destruct (code c). Qed.

Lemma no_blank_check_page c y :
  no_blank_page c -> code c <> [] -> no_blank_page (fst (check_page c y)).
Proof.
  intros H Hc. unfold check_page. destruct (Qltb y 80); [|exact H].
  unfold no_blank_page. cbn [fst showPage pages].
  apply Forall_app. split; [exact H|]. now constructor.
Qed.

Lemma no_blank_deduction_cell deds i y c :
  no_blank_page c -> code c <> [] ->
  no_blank_page (deduction_cell deds i y c) /\ code (deduction_cell deds i y c) <> [].
Proof.
  intros H Hc. unfold deduction_cell.
  destruct (i <? List.length deds)%nat; [|now split].
  destruct (nth_error deds i); [|now split].
  split; [exact H | apply code_emit].
Qed.

Lemma no_blank_ledger_row deds i text amt y y' c :
  no_blank_page c ->
  no_blank_page
    (fst (check_page
            (deduction_cell deds i y
               (drawRightString 360 y amt (drawString 40 y text c))) y')).
Proof.
  intros H.
  destruct (no_blank_deduction_cell deds i y
              (drawRightString 360 y amt (drawString 40 y text c))) as [H1 H2].
  - exact H.
  - apply code_emit.
  - now apply no_blank_check_page.
Qed.

Lemma no_blank_allowance_rows deds als : forall i c y,
  no_blank_page c -> no_blank_page (fst (allowance_rows deds i als c y)).
Proof.
  induction als as [|a als IH]; intros i c y H; [exact H|].
  cbn [allowance_rows].
  pose proof (no_blank_ledger_row deds (2 + i) (label a) (fmt a) y (y - 14) c H) as Hrow.
  destruct (check_page _ (y - 14)) as [c1 y1]. now apply IH.
Qed.

Lemma no_blank_benefit_rows bs : forall c y,
  no_blank_page c -> no_blank_page (fst (benefit_rows bs c y)).
Proof.
  induction bs as [|b bs IH]; intros c y H; [exact H|].
  cbn [benefit_rows].
  pose proof (no_blank_check_page
                (drawRightString 560 y (fmt b) (drawString 40 y (label b) c)) (y - 12)
                H (code_emit _ _)) as Hrow.
  destruct (check_page _ (y - 12)) as [c1 y1]. now apply IH.
Qed.

Lemma no_blank_nonfinancial_rows bs : forall c y,
  no_blank_page c -> no_blank_page (fst (nonfinancial_rows bs c y)).
Proof.
  induction bs as [|b bs IH]; intros c y H; [exact H|].
  cbn [nonfinancial_rows].
  pose proof (no_blank_check_page
                (drawString 40 y ("- " ++ item_repr b) c) (y - 12)
                H (code_emit _ _)) as Hrow.
  destruct (check_page _ (y - 12)) as [c1 y1]. now apply IH.
Qed.

Lemma address_lines_pages ls : forall c y,
  pages (fst (address_lines ls c y)) = pages c
  /\ (code c <> [] -> code (fst (address_lines ls c y)) <> []).
Proof.
  induction ls as [|l ls IH]; intros c y; [now split|].
  cbn [address_lines]. destruct (IH (drawString 40 y l c) (y - 12)) as [Hp Hc].
  split; [exact Hp|]. intros _. apply Hc, code_emit.
Qed.

Lemma after_employee_pages data :
  pages (fst (after_employee data)) = [] /\ code (fst (after_employee data)) <> [].
Proof.
  unfold after_employee, company_info.
  destruct (address_lines_pages (split_newline (company_address data))
              (setFont "Helvetica" 10
                 (drawString 40 (height - 110) (company_name data)
                    (setFont "Helvetica-Bold" 11 (header_block data new_canvas))))
              (height - 110 - 14)) as [Hp _].
  destruct (address_lines _ _ _) as [c y]. cbn [fst] in Hp.
  unfold employee_info. cbn [fst].
  split; [exact Hp | apply code_emit].
Qed.

Lemma render_no_blank data logo : no_blank_page (render data logo).
Proof.
  rewrite render_stages.
  unfold after_nonfinancial, after_benefits, after_totals, after_ledger,
    after_base_salary, after_ledger_header.
  destruct (after_employee_pages data) as [Hp Hc].
  destruct (after_employee data) as [c0 y0]. cbn [fst] in Hp, Hc.
  assert (H0 : no_blank_page c0) by (unfold no_blank_page; rewrite Hp; constructor).
  unfold ledger_header.
  pose proof (no_blank_check_page c0 (y0 - 28) H0 Hc) as H1.
  destruct (check_page c0 (y0 - 28)) as [c1 y1]. cbn [fst] in H1.
  unfold base_salary_row.
  match goal with |- context [check_page (deduction_cell ?d 0 ?y (drawRightString 360 ?y ?a (drawString 40 ?y ?t ?c))) ?y'] =>
    pose proof (no_blank_ledger_row d 0%nat t a y y' c) as H2 end.
  destruct (check_page _ (y1 - 14 - 14)) as [c2 y2]. cbn [fst] in H2.
  unfold overtime_row.
  match goal with |- context [check_page (deduction_cell ?d 1 ?y (drawRightString 360 ?y ?a (drawString 40 ?y ?t ?c))) ?y'] =>
    pose proof (no_blank_ledger_row d 1%nat t a y y' c) as H3 end.
  destruct (check_page _ (y2 - 14)) as [c3 y3]. cbn [fst] in H3.
  pose proof (no_blank_allowance_rows (deductions data) (allowances data) 0 c3 y3) as H4.
  destruct (allowance_rows _ _ _ c3 y3) as [c4 y4]. cbn [fst] in H4.
  unfold totals.
  match goal with |- context [check_page ?c ?y] =>
    pose proof (no_blank_check_page c y) as H5 end.
  destruct (check_page _ (y4 - 10 - 22 - 30)) as [c5 y5]. cbn [fst] in H5.
  unfold employer_paid_benefits.
  match goal with |- context [benefit_rows ?b ?c ?y] =>
    pose proof (no_blank_benefit_rows b c y) as H6 end.
  destruct (benefit_rows _ _ _) as [c6 y6]. cbn [fst] in H6.
  unfold nonfinancial_benefits.
  apply no_blank_nonfinancial_rows. apply H6, H5; [|apply code_emit].
  apply H4, H3, H2, H1.
Qed.

Lemma save_no_blank c : no_blank_page c -> Forall (fun p : page => p <> []) (save c).
Proof.
  intros H. unfold save. destruct (code c) eqn:E; [exact H|].
  cbn [showPage pages]. apply Forall_app. split; [exact H|].
  constructor; [|constructor]. rewrite E. discriminate.
Qed.

(** X5. The document never holds a blank page, and it always has a page:
    every page break follows a drawing call on the page it closes, and
    saving closes the last page only when something was drawn on it. *)
Theorem X5_no_blank_page :
  forall data logo,
    create_payslip_pdf data logo <> []
    /\ Forall (fun p : page => p <> []) (create_payslip_pdf data logo).
Proof.
  intros data logo. unfold create_payslip_pdf. split.
  - destruct (header_then_body data logo) as (body & rest & E & _).
    unfold create_payslip_pdf in E. rewrite E. discriminate.
  - apply save_no_blank, render_no_blank.
Qed.

(** ** The number of pages *)

Lemma height_value : height == 106920 # 127.
Proof. reflexivity. Qed.

Lemma height_threshold K : 80 <= height - inject_Z K <-> (K <= 761)%Z.
Proof.
  rewrite height_value. unfold Qle, Qminus, Qplus, Qopp, inject_Z. cbn [Qnum Qden].
  lia.
Qed.

Lemma tracks_refl s K : tracks s K s K.
Proof. repeat split; auto. Qed.

Lemma tracks_trans s K s1 K1 s2 K2 :
  tracks s K s1 K1 -> tracks s1 K1 s2 K2 -> (K1 <= K2)%Z -> tracks s K s2 K2.
Proof.
  intros (M1 & E1 & P1) (M2 & E2 & P2) Hle. repeat split.
  - auto.
  - auto.
  - intros He Hp Hk. apply P2; [auto | | exact Hk]. apply P1; [auto | auto | lia].
Qed.

Lemma tracks_emit o c y K : tracks (c, y) K (emit o c, y) K.
Proof. repeat split; auto. Qed.

Lemma tracks_down d c y K : tracks (c, y) K (c, y - inject_Z d) (K + d).
Proof.
  repeat split; auto.
  intros He Hp. cbn [fst snd] in *. specialize (He Hp).
  rewrite inject_Z_plus. rewrite He. ring.
Qed.

Lemma tracks_check c y K : tracks (c, y) K (check_page c y) K.
Proof.
  unfold check_page. destruct (Qltb y 80) eqn:E.
  - repeat split; cbn [fst snd showPage pages].
    + intros H. apply app_eq_nil in H. tauto.
    + intros _ H. apply app_eq_nil in H. destruct H as [_ H]. discriminate.
    + intros He Hp Hk. exfalso. apply Qltb_true in E.
      specialize (He Hp). cbn [snd] in He. apply height_threshold in Hk.
      rewrite <- He in Hk. lra.
  - apply tracks_refl.
Qed.

Lemma tracks_cell deds i y' c y K : tracks (c, y) K (deduction_cell deds i y' c, y) K.
Proof.
  unfold deduction_cell. destruct (i <? List.length deds)%nat; [|apply tracks_refl].
  destruct (nth_error deds i); [|apply tracks_refl]. repeat split; auto.
Qed.

(** The page check closes a page when the exact cursor is below 80. *)
Lemma check_breaks c y K :
  exact_cursor (c, y) K -> (761 < K)%Z -> pages (fst (check_page c y)) <> [].
Proof.
  intros He Hk. unfold check_page. destruct (Qltb y 80) eqn:E.
  - cbn [fst showPage pages]. intros H. apply app_eq_nil in H.
    destruct H as [_ H]. discriminate.
  - cbn [fst]. intros Hp. apply Qltb_false in E. specialize (He Hp). cbn [snd] in He.
    rewrite He in E. apply height_threshold in E. lia.
Qed.

Lemma tracks_row deds i text amt c y K :
  tracks (c, y) K
    (check_page (deduction_cell deds i y
                   (drawRightString 360 y amt (drawString 40 y text c))) (y - 14))
    (K + 14).
Proof.
  eapply tracks_trans; [|apply tracks_check|lia].
  eapply tracks_trans; [|apply (tracks_down 14)|lia].
  eapply tracks_trans; [|apply tracks_cell|lia].
  eapply tracks_trans; [|apply tracks_emit|lia].
  apply tracks_emit.
Qed.

Lemma tracks_allowance_rows deds als : forall i c y K,
  tracks (c, y) K (allowance_rows deds i als c y)
    (K + 14 * Z.of_nat (List.length als)).
Proof.
  induction als as [|a als IH]; intros i c y K.
  - cbn [allowance_rows Datatypes.length]. replace (K + 14 * Z.of_nat 0)%Z with K by lia.
    apply tracks_refl.
  - cbn [allowance_rows].
    pose proof (tracks_row deds (2 + i) (label a) (fmt a) c y K) as Hrow.
    destruct (check_page _ (y - 14)) as [c1 y1].
    replace (K + 14 * Z.of_nat (List.length (a :: als)))%Z
      with (K + 14 + 14 * Z.of_nat (List.length als))%Z
      by (cbn [Datatypes.length]; lia).
    eapply tracks_trans; [exact Hrow | apply IH | lia].
Qed.

Lemma tracks_benefit_row (b : item) c y K :
  tracks (c, y) K
    (check_page (drawRightString 560 y (fmt b) (drawString 40 y (label b) c)) (y - 12))
    (K + 12).
Proof.
  eapply tracks_trans; [|apply tracks_check|lia].
  eapply tracks_trans; [|apply (tracks_down 12)|lia].
  eapply tracks_trans; [|apply tracks_emit|lia].
  apply tracks_emit.
Qed.

Lemma tracks_benefit_rows bs : forall c y K,
  tracks (c, y) K (benefit_rows bs c y) (K + 12 * Z.of_nat (List.length bs)).
Proof.
  induction bs as [|b bs IH]; intros c y K.
  - cbn [benefit_rows Datatypes.length]. replace (K + 12 * Z.of_nat 0)%Z with K by lia.
    apply tracks_refl.
  - cbn [benefit_rows].
    pose proof (tracks_benefit_row b c y K) as Hrow.
    destruct (check_page _ (y - 12)) as [c1 y1].
    replace (K + 12 * Z.of_nat (List.length (b :: bs)))%Z
      with (K + 12 + 12 * Z.of_nat (List.length bs))%Z
      by (cbn [Datatypes.length]; lia).
    eapply tracks_trans; [exact Hrow | apply IH | lia].
Qed.

Lemma tracks_nonfinancial_row (b : item) c y K :
  tracks (c, y) K (check_page (drawString 40 y ("- " ++ item_repr b) c) (y - 12)) (K + 12).
Proof.
  eapply tracks_trans; [|apply tracks_check|lia].
  eapply tracks_trans; [|apply (tracks_down 12)|lia].
  apply tracks_emit.
Qed.

Lemma tracks_nonfinancial_rows bs : forall c y K,
  tracks (c, y) K (nonfinancial_rows bs c y) (K + 12 * Z.of_nat (List.length bs)).
Proof.
  induction bs as [|b bs IH]; intros c y K.
  - cbn [nonfinancial_rows Datatypes.length].
    replace (K + 12 * Z.of_nat 0)%Z with K by lia. apply tracks_refl.
  - cbn [nonfinancial_rows].
    pose proof (tracks_nonfinancial_row b c y K) as Hrow.
    destruct (check_page _ (y - 12)) as [c1 y1].
    replace (K + 12 * Z.of_nat (List.length (b :: bs)))%Z
      with (K + 12 + 12 * Z.of_nat (List.length bs))%Z
      by (cbn [Datatypes.length]; lia).
    eapply tracks_trans; [exact Hrow | apply IH | lia].
Qed.

Ltac track_back :=
  repeat first
    [ apply tracks_refl
    | eapply tracks_trans;
      [ | first [ apply tracks_emit | apply tracks_cell | apply (tracks_down _) ] | lia ] ].

Lemma tracks_ledger_header c y K : tracks (c, y) K (ledger_header c y) (K + 28 + 14).
Proof.
  unfold ledger_header.
  pose proof (tracks_trans _ _ _ _ _ _ (tracks_down 28 c y K)
                (tracks_check c (y - 28) (K + 28)) (Z.le_refl _)) as H.
  destruct (check_page c (y - 28)) as [c1 y1].
  eapply tracks_trans; [exact H | | lia].
  unfold setFont, drawString. track_back.
Qed.

Lemma tracks_base_salary_row data c y K :
  tracks (c, y) K (base_salary_row data c y) (K + 14).
Proof. apply tracks_row. Qed.

Lemma tracks_overtime_row data c y K :
  tracks (c, y) K (overtime_row data c y) (K + 14).
Proof. apply tracks_row. Qed.

(** The ledger, from its header to the last allowance row. *)
Lemma tracks_ledger data :
  forall K,
    tracks (after_employee data) K (after_ledger data)
      (K + 70 + 14 * Z.of_nat (List.length (allowances data))).
Proof.
  intros K. unfold after_ledger, after_base_salary, after_ledger_header.
  destruct (after_employee data) as [c0 y0].
  pose proof (tracks_ledger_header c0 y0 K) as H1.
  destruct (ledger_header c0 y0) as [c1 y1].
  pose proof (tracks_base_salary_row data c1 y1 (K + 28 + 14)) as H2.
  destruct (base_salary_row data c1 y1) as [c2 y2].
  pose proof (tracks_overtime_row data c2 y2 (K + 28 + 14 + 14)) as H3.
  destruct (overtime_row data c2 y2) as [c3 y3].
  pose proof (tracks_allowance_rows (deductions data) (allowances data) 0 c3 y3
                (K + 28 + 14 + 14 + 14)) as H4.
  replace (K + 70 + 14 * Z.of_nat (List.length (allowances data)))%Z
    with (K + 28 + 14 + 14 + 14 + 14 * Z.of_nat (List.length (allowances data)))%Z by lia.
  eapply tracks_trans; [|exact H4|lia].
  eapply tracks_trans; [|exact H3|lia].
  eapply tracks_trans; [exact H1|exact H2|lia].
Qed.

(** The totals block: what it draws, then its page check. *)
Lemma totals_check data c y K :
  exists cT,
    totals data c y = check_page cT (y - 10 - 22 - 30)
    /\ tracks (c, y) K (cT, y - 10 - 22 - 30) (K + 10 + 22 + 30).
Proof.
  unfold totals. eexists. split; [reflexivity|].
  unfold setFont, drawString, drawRightString. track_back.
Qed.

Lemma benefits_header data c y K :
  exists cB,
    employer_paid_benefits data c y = benefit_rows (benefits data) cB (y - 16)
    /\ tracks (c, y) K (cB, y - 16) (K + 16).
Proof.
  unfold employer_paid_benefits. eexists. split; [reflexivity|].
  unfold setFont, drawString. track_back.
Qed.

Lemma nonfinancial_header data c y K :
  exists cN,
    nonfinancial_benefits data c y = nonfinancial_rows (benefits data) cN (y - 16)
    /\ tracks (c, y) K (cN, y - 16) (K + 16)
    /\ pages cN = pages c.
Proof.
  unfold nonfinancial_benefits. eexists. split; [reflexivity|]. split.
  - unfold setFont, drawString. track_back.
  - reflexivity.
Qed.

Lemma benefit_rows_snoc bs l : forall c y,
  benefit_rows (bs ++ [l]) c y
  = check_page
      (drawRightString 560 (snd (benefit_rows bs c y)) (fmt l)
         (drawString 40 (snd (benefit_rows bs c y)) (label l)
            (fst (benefit_rows bs c y))))
      (snd (benefit_rows bs c y) - 12).
Proof.
  induction bs as [|b bs IH]; intros c y.
  - cbn [List.app benefit_rows fst snd]. now destruct (check_page _ (y - 12)).
  - cbn [List.app benefit_rows]. destruct (check_page _ (y - 12)) as [c1 y1]. apply IH.
Qed.

Lemma nonfinancial_rows_snoc bs l : forall c y,
  nonfinancial_rows (bs ++ [l]) c y
  = check_page
      (drawString 40 (snd (nonfinancial_rows bs c y)) ("- " ++ item_repr l)
         (fst (nonfinancial_rows bs c y)))
      (snd (nonfinancial_rows bs c y) - 12).
Proof.
  induction bs as [|b bs IH]; intros c y.
  - cbn [List.app nonfinancial_rows fst snd]. now destruct (check_page _ (y - 12)).
  - cbn [List.app nonfinancial_rows]. destruct (check_page _ (y - 12)) as [c1 y1]. apply IH.
Qed.

(** The page check after an exactly tracked stretch closes a page exactly
    when the cursor has fallen below 80. *)
Lemma check_closes_iff s0 K0 c y K :
  pages (fst s0) = [] -> exact_cursor s0 K0 -> tracks s0 K0 (c, y) K ->
  pages (fst (check_page c y)) = [] <-> (K <= 761)%Z.
Proof.
  intros Hp He Ht. split.
  - intros H. destruct (Z_le_gt_dec K 761) as [Hle | Hgt]; [exact Hle|].
    exfalso. apply (check_breaks c y K); [|lia|exact H].
    destruct Ht as (_ & E & _). now apply E.
  - intros Hle.
    destruct (tracks_trans _ _ _ _ _ _ Ht (tracks_check c y K) (Z.le_refl _))
      as (_ & _ & P).
    now apply P.
Qed.

(** ** The length of the saved document *)

Lemma save_emit o c : List.length (save (emit o c)) = S (List.length (pages c)).
Proof.
  unfold save. cbn [emit code pages showPage].
  destruct (code c ++ [o])%list eqn:E.
  - apply app_eq_nil in E. destruct E as [_ E]. discriminate.
  - rewrite length_app. cbn [Datatypes.length]. lia.
Qed.

Lemma save_check_emit o c y :
  List.length (save (fst (check_page (emit o c) y))) = S (List.length (pages c)).
Proof.
  unfold check_page. destruct (Qltb y 80).
  - cbn [fst]. unfold save. cbn [showPage code pages emit].
    rewrite length_app. cbn [Datatypes.length]. lia.
  - apply save_emit.
Qed.

Lemma one_page_iff (c : canvas) :
  S (List.length (pages c)) = 1%nat <-> pages c = [].
Proof.
  split.
  - intros H. destruct (pages c); [reflexivity | discriminate].
  - intros ->. reflexivity.
Qed.

Lemma address_lines_cursor ls : forall c y,
  snd (address_lines ls c y) == y - inject_Z (12 * Z.of_nat (List.length ls)).
Proof.
  induction ls as [|l ls IH]; intros c y.
  - cbn [address_lines snd Datatypes.length]. change (inject_Z (12 * Z.of_nat 0)) with 0.
    ring.
  - cbn [address_lines]. rewrite IH.
    replace (12 * Z.of_nat (List.length (l :: ls)))%Z
      with (12 + 12 * Z.of_nat (List.length ls))%Z by (cbn [Datatypes.length]; lia).
    rewrite inject_Z_plus. change (inject_Z 12) with 12. ring.
Qed.

(** The company and employee blocks are drawn without a page check. *)
Lemma after_employee_cursor data :
  pages (fst (after_employee data)) = []
  /\ snd (after_employee data)
     == height - inject_Z (180 + 12 * address_line_count data).
Proof.
  split; [apply after_employee_pages|].
  unfold after_employee, company_info, address_line_count.
  match goal with |- context [address_lines ?l ?c ?y] =>
    pose proof (address_lines_cursor l c y) as H;
    destruct (address_lines l c y) as [c1 y1] end.
  cbn [snd] in H. unfold employee_info. cbn [snd]. rewrite H.
  rewrite !inject_Z_plus, !inject_Z_mult. change (inject_Z 180) with 180.
  change (inject_Z 12) with 12. ring.
Qed.

Lemma after_employee_exact data :
  exact_cursor (after_employee data) (180 + 12 * address_line_count data).
Proof. intros _. apply after_employee_cursor. Qed.

Lemma single_page_no_benefits data logo :
  benefits data = [] ->
  List.length (create_payslip_pdf data logo) = 1%nat
  <-> (312 + 12 * address_line_count data
       + 14 * Z.of_nat (List.length (allowances data)) <= 761)%Z.
Proof.
  intros Hb. unfold create_payslip_pdf. rewrite render_stages.
  unfold after_nonfinancial, after_benefits, after_totals.
  pose proof (tracks_ledger data (180 + 12 * address_line_count data)) as HL.
  destruct (after_ledger data) as [c4 y4].
  destruct (totals_check data c4 y4
              (180 + 12 * address_line_count data + 70
               + 14 * Z.of_nat (List.length (allowances data)))) as (cT & ET & HT).
  rewrite ET.
  pose proof (tracks_trans _ _ _ _ _ _ HL HT ltac:(lia)) as H.
  pose proof (check_closes_iff _ _ _ _ _ (proj1 (after_employee_cursor data))
                (after_employee_exact data) H) as Hiff.
  destruct (check_page cT (y4 - 10 - 22 - 30)) as [c5 y5]. cbn [fst] in Hiff.
  unfold employer_paid_benefits, nonfinancial_benefits. rewrite Hb.
  cbn [benefit_rows nonfinancial_rows fst].
  unfold setFont at 1. rewrite save_emit.
  rewrite one_page_iff, Hiff. lia.
Qed.

(** The canvas and cursor when the list of employer-paid benefits starts. *)
Lemma tracks_benefits_start data :
  exists cB yB,
    after_benefits data = benefit_rows (benefits data) cB yB
    /\ tracks (after_employee data) (180 + 12 * address_line_count data) (cB, yB)
         (328 + 12 * address_line_count data
          + 14 * Z.of_nat (List.length (allowances data))).
Proof.
  unfold after_benefits, after_totals.
  pose proof (tracks_ledger data (180 + 12 * address_line_count data)) as HL.
  destruct (after_ledger data) as [c4 y4].
  destruct (totals_check data c4 y4
              (180 + 12 * address_line_count data + 70
               + 14 * Z.of_nat (List.length (allowances data)))) as (cT & ET & HT).
  rewrite ET.
  pose proof (tracks_check cT (y4 - 10 - 22 - 30)
                (180 + 12 * address_line_count data + 70
                 + 14 * Z.of_nat (List.length (allowances data)) + 10 + 22 + 30)) as HC.
  destruct (check_page cT (y4 - 10 - 22 - 30)) as [c5 y5].
  destruct (benefits_header data c5 y5
              (180 + 12 * address_line_count data + 70
               + 14 * Z.of_nat (List.length (allowances data)) + 10 + 22 + 30))
    as (cB & EB & HB).
  exists cB, (y5 - 16). split; [exact EB|].
  replace (328 + 12 * address_line_count data
           + 14 * Z.of_nat (List.length (allowances data)))%Z
    with (180 + 12 * address_line_count data + 70
          + 14 * Z.of_nat (List.length (allowances data)) + 10 + 22 + 30 + 16)%Z by lia.
  eapply tracks_trans; [|exact HB|lia].
  eapply tracks_trans; [|exact HC|lia].
  eapply tracks_trans; [exact HL|exact HT|lia].
Qed.

Lemma single_page_one_benefit data logo l :
  benefits data = [l] ->
  List.length (create_payslip_pdf data logo) = 1%nat
  <-> (340 + 12 * address_line_count data
       + 14 * Z.of_nat (List.length (allowances data)) <= 761)%Z.
Proof.
  intros Hb. unfold create_payslip_pdf. rewrite render_stages.
  unfold after_nonfinancial.
  destruct (tracks_benefits_start data) as (cB & yB & EB & HB).
  rewrite EB, Hb. change [l] with ([] ++ [l])%list.
  rewrite benefit_rows_snoc. cbn [benefit_rows fst snd].
  assert (Ht : tracks (after_employee data) (180 + 12 * address_line_count data)
                 (drawRightString 560 yB (fmt l) (drawString 40 yB (label l) cB),
                  yB - 12)
                 (340 + 12 * address_line_count data
                  + 14 * Z.of_nat (List.length (allowances data)))).
  { replace (340 + 12 * address_line_count data
             + 14 * Z.of_nat (List.length (allowances data)))%Z
      with (328 + 12 * address_line_count data
            + 14 * Z.of_nat (List.length (allowances data)) + 12)%Z by lia.
    eapply tracks_trans; [exact HB| |lia].
    unfold drawRightString, drawString. track_back. }
  pose proof (check_closes_iff _ _ _ _ _ (proj1 (after_employee_cursor data))
                (after_employee_exact data) Ht) as Hiff.
  destruct (check_page _ (yB - 12)) as [c6 y6]. cbn [fst] in Hiff.
  destruct (nonfinancial_header data c6 y6 0) as (cN & EN & _ & HN).
  rewrite EN, Hb. change [l] with ([] ++ [l])%list.
  rewrite nonfinancial_rows_snoc. cbn [nonfinancial_rows fst snd].
  unfold drawString at 1. rewrite save_check_emit.
  rewrite one_page_iff, HN. exact Hiff.
Qed.

Lemma single_page_more_benefits data logo init l1 l :
  benefits data = ((init ++ [l1]) ++ [l])%list ->
  List.length (create_payslip_pdf data logo) = 1%nat
  <-> (332 + 12 * address_line_count data
       + 14 * Z.of_nat (List.length (allowances data))
       + 24 * Z.of_nat (List.length (benefits data)) <= 761)%Z.
Proof.
  intros Hb. unfold create_payslip_pdf. rewrite render_stages.
  unfold after_nonfinancial.
  destruct (tracks_benefits_start data) as (cB & yB & EB & HB).
  rewrite EB.
  pose proof (tracks_benefit_rows (benefits data) cB yB
                (328 + 12 * address_line_count data
                 + 14 * Z.of_nat (List.length (allowances data)))) as HR.
  destruct (benefit_rows (benefits data) cB yB) as [c6 y6].
  destruct (nonfinancial_header data c6 y6
              (328 + 12 * address_line_count data
               + 14 * Z.of_nat (List.length (allowances data))
               + 12 * Z.of_nat (List.length (benefits data)))) as (cN & EN & HN & _).
  rewrite EN. rewrite Hb at 1. rewrite nonfinancial_rows_snoc.
  unfold drawString at 1. rewrite save_check_emit, one_page_iff.
  rewrite nonfinancial_rows_snoc.
  pose proof (tracks_nonfinancial_rows init cN (y6 - 16)
                (328 + 12 * address_line_count data
                 + 14 * Z.of_nat (List.length (allowances data))
                 + 12 * Z.of_nat (List.length (benefits data)) + 16)) as HI.
  destruct (nonfinancial_rows init cN (y6 - 16)) as [c7 y7]. cbn [fst snd].
  assert (Hlen : Z.of_nat (List.length (benefits data))
                 = (Z.of_nat (List.length init) + 2)%Z).
  { rewrite Hb, !length_app. cbn [Datatypes.length]. lia. }
  apply (check_closes_iff (after_employee data)
           (180 + 12 * address_line_count data));
    [apply after_employee_cursor | apply after_employee_exact |].
  replace (332 + 12 * address_line_count data
           + 14 * Z.of_nat (List.length (allowances data))
           + 24 * Z.of_nat (List.length (benefits data)))%Z
    with (328 + 12 * address_line_count data
          + 14 * Z.of_nat (List.length (allowances data))
          + 12 * Z.of_nat (List.length (benefits data)) + 16
          + 12 * Z.of_nat (List.length init) + 12)%Z by lia.
  eapply tracks_trans;
    [eapply tracks_trans;
       [eapply tracks_trans; [eapply tracks_trans; [exact HB|exact HR|lia]|exact HN|lia]
       |exact HI|lia]
    |unfold drawString; track_back|lia].
Qed.

(** The saved document is one page exactly when the record fits. *)
Lemma single_page_iff data logo :
  List.length (create_payslip_pdf data logo) = 1%nat <-> fits_one_page data.
Proof.
  unfold fits_one_page. cbv zeta.
  destruct (benefits data) as [|b0 bs] eqn:Hb.
  - rewrite (single_page_no_benefits data logo Hb). cbn [Datatypes.length]. lia.
  - destruct (exists_last (l := b0 :: bs) ltac:(discriminate)) as (front & l & E1).
    destruct front as [|b1 front'].
    + cbn [List.app] in E1. rewrite E1 in Hb.
      rewrite (single_page_one_benefit data logo l Hb).
      rewrite E1. cbn [Datatypes.length]. lia.
    + destruct (exists_last (l := b1 :: front') ltac:(discriminate)) as (init & l1 & E2).
      rewrite E2 in E1. rewrite E1 in Hb.
      rewrite (single_page_more_benefits data logo init l1 l Hb).
      rewrite Hb, E1, !length_app. cbn [Datatypes.length]. lia.
Qed.

(** X6. The payslip is a single page exactly when the address lines, the
    allowances and the benefits fit above the threshold of the page check:
    with [n] address lines, [a] allowances and [b] benefits, when
    [12 n + 14 a <= 449] and there is no benefit, or [12 n + 14 a <= 421]
    and there is one, or [12 n + 14 a + 24 b <= 429] and there are two or
    more. Deductions never matter, and the page check after the last row of
    the document adds no page. *)
Theorem X6_single_page_criterion :
  forall data logo,
    List.length (create_payslip_pdf data logo) = 1%nat <-> fits_one_page data.
Proof. exact single_page_iff. Qed.

(** ** From the form to the document *)

Lemma build_data_texts f data :
  build_data f = Ok data ->
  company_address data = in_company_address f
  /\ period data = in_period f
  /\ position data = in_position f.
Proof.
  unfold build_data.
  destruct (add_fmt (in_currency f) (in_number_format f) (in_benefits f));
    cbn [bind]; [|discriminate].
  repeat match goal with
         | |- context [bind (format_amount ?v ?c ?n)] =>
             destruct (format_amount v c n); cbn [bind]; [|discriminate]
         end.
  destruct (add_fmt (in_currency f) (in_number_format f) (in_allowances f));
    cbn [bind]; [|discriminate].
  destruct (add_fmt (in_currency f) (in_number_format f) (in_deductions f));
    cbn [bind]; [|discriminate].
  intros [= <-]. repeat split.
Qed.

(** X7. A form within the limits of the entry form, at most ten allowances
    and ten benefits, with a company address of at most four lines, gives a
    record that is rendered on a single page, whatever its deductions and
    amounts. *)
Theorem X7_form_limits_give_one_page :
  forall f logo,
    (Z.of_nat (List.length (split_newline (in_company_address f))) <= 4)%Z ->
    (List.length (in_allowances f) <= 10)%nat ->
    (List.length (in_benefits f) <= 10)%nat ->
    exists data,
      build_data f = Ok data
      /\ List.length (create_payslip_pdf data logo) = 1%nat.
Proof.
  intros f logo Hn Ha Hb.
  destruct (build_data_fields f) as (data & E & Fa & _ & Fb & _).
  exists data. split; [exact E|].
  destruct (build_data_texts f data E) as (Eaddr & _).
  apply Forall2_length in Fa, Fb.
  apply single_page_iff. unfold fits_one_page, address_line_count. cbv zeta.
  rewrite Eaddr. lia.
Qed.

Lemma X7_form_limits_give_one_page_witness :
  exists data,
    build_data (sample_form [mk_line "Transport" 500] [mk_line "Tax" 300]
                  [mk_line "Health Insurance" 100]) = Ok data
    /\ List.length (create_payslip_pdf data None) = 1%nat.
Proof.
  apply X7_form_limits_give_one_page.
  - vm_compute. discriminate.
  - cbn. lia.
  - cbn. lia.
Defined.

(** ** A form without deductions *)

Lemma fsub_zero x : fsub x (float_of_Z 0) = x.
Proof.
  destruct x as [[]|[]| |[] m e]; reflexivity.
Qed.

(** X8. With no deduction, net pay is total earnings, the same float, and
    the record shows the same text for both; the sum of the deductions is
    the integer 0 and is shown as [Rp 0] for IDR, as the symbol followed by
    [0.00], or [0,00] in the "EU" style, for the other currencies of the
    table, and as the bare [0] of the fallback for an unknown currency. *)
Theorem X8_no_deductions :
  forall f,
    in_deductions f = [] ->
    net_pay f = total_earnings f
    /\ exists data,
         build_data f = Ok data
         /\ fmt_net_pay data = fmt_total_earnings data
         /\ (in_currency f = "IDR" -> fmt_total_deductions data = "Rp 0")
         /\ (forall sym, in_currency f <> "IDR" ->
               dict_get CURRENCY_SYMBOLS (in_currency f) = Ok sym ->
               fmt_total_deductions data
               = sym ++ " 0" ++ String (decimal_sep (in_number_format f)) "00")
         /\ (~ known_currency (in_currency f) -> fmt_total_deductions data = "0").
Proof.
  intros f Hd.
  assert (Hn : net_pay f = total_earnings f).
  { unfold net_pay, total_deductions. rewrite Hd. cbn [py_sum fold_left].
    rewrite total_earnings_is_float. cbn [num_sub num_to_float].
    now rewrite fsub_zero. }
  split; [exact Hn|].
  destruct (build_data_fields f) as (data & E & _ & _ & _ & He & Ht & Hp).
  exists data. split; [exact E|].
  rewrite Hn, He in Hp. split; [congruence|].
  unfold total_deductions in Ht. rewrite Hd in Ht. cbn [py_sum fold_left val_of_num] in Ht.
  repeat split.
  - intros Hc. rewrite Hc in Ht. rewrite format_amount_idr in Ht.
    assert (E0 : int_round (VInt 0) = Ok 0%Z) by reflexivity.
    assert (E1 : format_int_comma 0 = "0") by reflexivity.
    rewrite E0, E1 in Ht. revert Ht.
    destruct (String.eqb (in_number_format f) "EU"); cbn; congruence.
  - intros sym Hc Hs. rewrite (format_amount_decimal _ sym _ _ Hc Hs) in Ht.
    assert (E0 : format_comma_2f (VInt 0) = Ok "0.00") by (vm_compute; reflexivity).
    assert (E1 : replace "X" "." (replace "." "," (replace "," "X" "0.00")) = "0,00")
      by (vm_compute; reflexivity).
    rewrite E0, E1 in Ht. unfold decimal_sep. revert Ht.
    destruct (String.eqb (in_number_format f) "EU"); intros [= <-]; reflexivity.
  - intros Hk. rewrite format_amount_malformed in Ht by (now left).
    assert (E0 : py_str (VInt 0) = "0") by reflexivity.
    rewrite E0 in Ht. congruence.
Qed.

Lemma X8_no_deductions_witness :
  net_pay (sample_form [mk_line "Transport" 500] [] [])
  = total_earnings (sample_form [mk_line "Transport" 500] [] []).
Proof.
  exact (proj1 (X8_no_deductions (sample_form [mk_line "Transport" 500] [] [])
                  eq_refl)).
Defined.

(** ** The blocks above the ledger *)

Lemma after_employee_last data :
  exists pre,
    code (fst (after_employee data))
    = (pre ++ [DrawString 40 (snd (after_employee data))
                 ("Position: " ++ position data);
               DrawString 300 (snd (after_employee data))
                 ("Period: " ++ period data)])%list.
Proof.
  unfold after_employee.
  destruct (company_info data _ _) as [c1 y1].
  unfold employee_info, drawString, emit. cbn [fst snd code].
  eexists. rewrite <- app_assoc. reflexivity.
Qed.

Lemma first_page_extends data logo :
  exists more rest,
    create_payslip_pdf data logo
    = (code (fst (after_employee data)) ++ more)%list :: rest.
Proof.
  pose proof (body_steps data) as Hs.
  apply steps_pages in Hs; [|apply after_employee_pages].
  unfold create_payslip_pdf, save. rewrite render_stages.
  destruct Hs as [(Hp & body & Hc & _) | (body & rest & Hp & _)].
  - destruct (code (fst (after_nonfinancial data))) eqn:E.
    + exfalso. symmetry in Hc. apply app_eq_nil in Hc. destruct Hc as [Hc _].
      now apply (proj2 (after_employee_pages data)).
    + cbn [showPage pages]. rewrite Hp, E, Hc. cbn [List.app]. now exists body, [].
  - destruct (code (fst (after_nonfinancial data))).
    + rewrite Hp. now exists body, rest.
    + cbn [showPage pages]. rewrite Hp. cbn [List.app]. eexists body, _. reflexivity.
Qed.

(** X9. The company and employee blocks are drawn without any page check:
    whatever the number [n] of address lines, the first page holds the
    position and period line, drawn with the cursor at
    [height - 180 - 12 n]; from 56 address lines on that is below the bottom
    edge of the page. *)
Theorem X9_address_block_is_never_paginated :
  forall data logo,
  exists pre y more rest,
    create_payslip_pdf data logo
    = (pre ++ [DrawString 40 y ("Position: " ++ position data);
               DrawString 300 y ("Period: " ++ period data)] ++ more)%list :: rest
    /\ y == height - inject_Z (180 + 12 * address_line_count data)
    /\ (y < 0 <-> (56 <= address_line_count data)%Z).
Proof.
  intros data logo.
  destruct (first_page_extends data logo) as (more & rest & E).
  destruct (after_employee_last data) as (pre & Ec).
  destruct (after_employee_cursor data) as (_ & Ey).
  exists pre, (snd (after_employee data)), more, rest.
  split; [|split; [exact Ey|]].
  - rewrite E, Ec. now rewrite <- app_assoc.
  - rewrite Ey, height_value.
    unfold Qlt, Qminus, Qplus, Qopp, inject_Z. cbn [Qnum Qden]. lia.
Qed.
